(** * View container: parts, split layout and persisted state

    A shallow embedding of [packages/core/src/browser/view-container.ts]:
    the part wrapper ([ViewContainerPart]), the sizing layout
    ([ViewContainerLayout]) and the container ([ViewContainer]) with its
    commands and its persisted state.

    Conventions of the embedding.
    - A JavaScript [number] is an exact rational ([Q]); [number | undefined]
      is [option Q].  Rounding, [NaN] and the infinities are outside this
      idealisation: a quotient by zero is reported as [None] ([jsdiv]).
    - Objects that the code mutates in place (the parts held by the layout)
      live in the layout's item list and are updated at their index.
    - What the code reads from the DOM (measured extents, computed minimum
      sizes, the shell area a node sits in) is carried as data. *)

From Stdlib Require Import QArith Lqa Lia.
From stdpp Require Import base option list strings.

Open Scope Q_scope.

(** ** JavaScript numbers *)

(** Truthiness of a [number | undefined]: [undefined] and [0] are falsy. *)
Definition truthy (weight : option Q) : bool :=
  match weight with
  | Some w => negb (Qeq_bool w 0)
  | None => false
  end.

(** [weight || fallback]. *)
Definition orElse (weight : option Q) (fallback : Q) : Q :=
  match weight with
  | Some w => if Qeq_bool w 0 then fallback else w
  | None => fallback
  end.

(** [a < b]. *)
Definition Qltb (a b : Q) : bool := negb (Qle_bool b a).

(** [Math.max]. *)
Definition Qmax (a b : Q) : Q := if Qltb a b then b else a.

(** [a / b]; a zero divisor gives a non-finite JavaScript number, which the
    rational idealisation does not represent. *)
Definition jsdiv (a b : Q) : option Q :=
  if Qeq_bool b 0 then None else Some (a / b).

Definition Qsum (l : list Q) : Q := foldr Qplus 0 l.

(** ** DOM facts *)

Inductive Orientation := horizontal | vertical.

Global Instance Orientation_eq_dec : EqDecision Orientation.
Proof. solve_decision. Defined.

(** The shell area whose element is the closest enclosing one of a node. *)
Inductive Area := MainArea | BottomArea | SideArea.

(** [ViewContainer.getOrientation(node)]: [node.closest] finds the main or
    the bottom area exactly when the node sits inside one of them; a node
    that is not inserted anywhere ([None]) finds nothing. *)
Definition getOrientation (node : option Area) : Orientation :=
  match node with
  | Some MainArea | Some BottomArea => horizontal
  | _ => vertical
  end.

(** ** Widgets, options and parts *)

(** A content widget: its id and what [widgetManager.getDescription] knows
    about it, already serialised by [JSON.stringify]. *)
Record Widget := mkWidget {
  widget_id : string;
  description : option string
}.

Module WidgetOptions.
Record t := mk {
  order : option Q;
  weight : option Q;
  initiallyCollapsed : option bool;
  canHide : option bool;
  initiallyHidden : option bool
}.
(** The default [{}]. *)
Definition empty : t := mk None None None None None.
End WidgetOptions.

(** [!!b] on an optional boolean. *)
Definition isTrue (b : option bool) : bool := default false b.

Module Part.
Record t := mk {
  wrapped : Widget;
  partId : string;
  id : string;
  options : WidgetOptions.t;
  _collapsed : bool;
  isHidden : bool;
  uncollapsedSize : option Q;
  animatedSize : option Q;
  (* readings of the part's node and body *)
  offsetWidth : Q;
  offsetHeight : Q;
  minWidth : Q;
  minHeight : Q
}.

Definition collapsed (p : t) : bool := _collapsed p.

(** [get canHide]. *)
Definition canHide (p : t) : bool :=
  default true (WidgetOptions.canHide (options p)).

(** [get minSize]; [node] is where the part's node sits. *)
Definition minSize (node : option Area) (p : t) : Q :=
  match getOrientation node with
  | horizontal => minWidth p
  | vertical => minHeight p
  end.

Definition with_collapsed (c : bool) (p : t) : t :=
  mk (wrapped p) (partId p) (id p) (options p) c (isHidden p)
     (uncollapsedSize p) (animatedSize p)
     (offsetWidth p) (offsetHeight p) (minWidth p) (minHeight p).

Definition with_hidden (h : bool) (p : t) : t :=
  mk (wrapped p) (partId p) (id p) (options p) (_collapsed p) h
     (uncollapsedSize p) (animatedSize p)
     (offsetWidth p) (offsetHeight p) (minWidth p) (minHeight p).

Definition with_uncollapsedSize (s : option Q) (p : t) : t :=
  mk (wrapped p) (partId p) (id p) (options p) (_collapsed p) (isHidden p)
     s (animatedSize p)
     (offsetWidth p) (offsetHeight p) (minWidth p) (minHeight p).

(** [set collapsed], the part's own half: the guard and the assignment.
    The result tells whether the change event fires. *)
Definition set_collapsed (node : option Area) (collapsed : bool) (p : t)
  : t * bool :=
  if bool_decide (_collapsed p = collapsed)
     || (bool_decide (getOrientation node = horizontal) && collapsed)
  then (p, false)
  else (with_collapsed collapsed p, true).

(** Phosphor's [hide], [show] and [setHidden] on the hidden flag. *)
Definition hide (p : t) : t := with_hidden true p.
Definition show (p : t) : t := with_hidden false p.
Definition setHidden (hidden : bool) (p : t) : t :=
  if hidden then hide p else show p.

(** [ViewContainerPart.HEADER_HEIGHT]. *)
Definition HEADER_HEIGHT : Q := 22.
End Part.

(** The split panel that is the layout's parent: Phosphor's attached flag,
    the measured extents of its node and the area the node sits in. *)
Record SplitPanel := mkPanel {
  isAttached : bool;
  panel_offsetWidth : Q;
  panel_offsetHeight : Q;
  panel_node : option Area
}.

(** ** The layout *)

Module Layout.
Record t := mk {
  items : list Part.t;
  orientation : Orientation;
  spacing : Q;
  headerSize : Q;
  animationDuration : Q;
  parent : option SplitPanel
}.

Definition with_items (l : list Part.t) (L : t) : t :=
  mk l (orientation L) (spacing L) (headerSize L) (animationDuration L)
     (parent L).

Definition with_orientation (o : Orientation) (L : t) : t :=
  mk (items L) o (spacing L) (headerSize L) (animationDuration L)
     (parent L).

Definition with_parent (p : option SplitPanel) (L : t) : t :=
  mk (items L) (orientation L) (spacing L) (headerSize L)
     (animationDuration L) p.

(** [get widgets]. *)
Definition widgets (L : t) : list Part.t := items L.

(** Where the nodes of the parts sit: inside the parent's node. *)
Definition partNode (L : t) : option Area :=
  match parent L with
  | Some panel => panel_node panel
  | None => None
  end.

(** [getAvailableSize]. *)
Definition getAvailableSize (L : t) : Q :=
  match parent L with
  | None => 0
  | Some panel =>
      if negb (isAttached panel) then 0
      else
        let visiblePartCount :=
          inject_Z (Z.of_nat
            (length (List.filter (fun part => negb (Part.isHidden part))
                                 (widgets L)))) in
        let availableSize :=
          match orientation L with
          | horizontal => panel_offsetWidth panel
          | vertical =>
              panel_offsetHeight panel - visiblePartCount * headerSize L
          end in
        let availableSize :=
          availableSize - (visiblePartCount - 1) * spacing L in
        if Qltb availableSize 0 then 0 else availableSize
  end.

(** [getPartSize]. *)
Definition getPartSize (L : t) (part : Part.t) : option Q :=
  if Part.collapsed part || Part.isHidden part
  then Part.uncollapsedSize part
  else match orientation L with
       | horizontal => Some (Part.offsetWidth part)
       | vertical => Some (Part.offsetHeight part)
       end.

(** One visit of the last loop of [setPartSizes]: the call
    [setHandlePosition(index, position)] and, for an expanded part, the value
    of [contentSize] before and after it is raised to the minimum. *)
Record SizeStep := mkStep {
  step_index : nat;
  step_share : option Q;
  step_contentSize : option Q;
  step_position : Q
}.

(** The calls to [setHandlePosition] of a run. *)
Definition handlePositions (steps : list SizeStep) : list (nat * Q) :=
  map (fun s => (step_index s, step_position s)) steps.

(** First loop: sum and count the weights of the visible, expanded parts.
    It runs while [index < weights.length && index < parts.length]. *)
Fixpoint sumWeights (parts : list Part.t) (weights : list (option Q))
    (totalWeight : Q) (weightCount : nat) : Q * nat :=
  match parts, weights with
  | part :: parts, weight :: weights =>
      if truthy weight && negb (Part.isHidden part)
         && negb (Part.collapsed part)
      then sumWeights parts weights (totalWeight + orElse weight 0)
                      (S weightCount)
      else sumWeights parts weights totalWeight weightCount
  | _, _ => (totalWeight, weightCount)
  end.

(** Second loop: one average weight for each visible, expanded part that has
    no weight. *)
Fixpoint addAverage (parts : list Part.t) (weights : list (option Q))
    (averageWeight totalWeight : Q) : Q :=
  match parts, weights with
  | part :: parts, weight :: weights =>
      if negb (truthy weight) && negb (Part.isHidden part)
         && negb (Part.collapsed part)
      then addAverage parts weights averageWeight
                      (totalWeight + averageWeight)
      else addAverage parts weights averageWeight totalWeight
  | _, _ => totalWeight
  end.

(** Body of the third loop for the part at [index]: the part as it is left,
    the position carried to the next round, and the visit if the part is not
    hidden. *)
Definition sizePart (L : t)
    (averageWeight totalWeight availableSize : Q)
    (index : nat) (position : Q) (part : Part.t) (weight : option Q)
  : option (Part.t * Q * list SizeStep) :=
  if negb (Part.isHidden part) then
    let position :=
      match orientation L with
      | vertical => position + headerSize L
      | horizontal => position
      end in
    '(part, position, share, contentSize) ←
      (if Part.collapsed part then
         if truthy weight then
           q ← jsdiv (orElse weight 0) totalWeight;
           Some (Part.with_uncollapsedSize (Some (q * availableSize)) part,
                 position, None, None)
         else Some (part, position, None, None)
       else
         q ← jsdiv (orElse weight averageWeight) totalWeight;
         let share := q * availableSize in
         let minSize := Part.minSize (partNode L) part in
         let contentSize :=
           if Qltb share minSize then minSize else share in
         Some (part, position + contentSize, Some share,
               Some contentSize));
    Some (part, position + spacing L,
          [mkStep index share contentSize position])
  else Some (part, position, []).

(** Third loop.  It runs while
    [index < weights.length && index < parts.length - 1]: a part is visited
    only when another part follows it. *)
Fixpoint applyWeights (L : t)
    (averageWeight totalWeight availableSize : Q)
    (index : nat) (position : Q)
    (parts : list Part.t) (weights : list (option Q))
  : option (list Part.t * list SizeStep) :=
  match parts, weights with
  | part :: ((_ :: _) as rest), weight :: weights =>
      visit ←
        sizePart L averageWeight totalWeight availableSize
                 index position part weight;
      later ←
        applyWeights L averageWeight totalWeight availableSize
                     (S index) visit.1.2 rest weights;
      Some (visit.1.1 :: later.1, visit.2 ++ later.2)
  | _, _ => Some (parts, [])
  end.

(** [setPartSizes]: the layout with the parts it wrote to, and the visits of
    the third loop in order.  [None]: a quotient by a zero total weight. *)
Definition setPartSizes (weights : list (option Q)) (L : t)
  : option (t * list SizeStep) :=
  let parts := widgets L in
  let availableSize := getAvailableSize L in
  let '(totalWeight, weightCount) := sumWeights parts weights 0 0 in
  if bool_decide (weightCount = 0%nat) || Qeq_bool availableSize 0
  then Some (L, [])
  else
    let averageWeight := totalWeight / inject_Z (Z.of_nat weightCount) in
    let totalWeight := addAverage parts weights averageWeight totalWeight in
    '(parts, steps) ←
      applyWeights L averageWeight totalWeight availableSize 0 0
                   parts weights;
    Some (with_items parts L, steps).

(** The locals of [setPartSizes] by name: [totalWeight] and [weightCount]
    after the first loop, [averageWeight], and [totalWeight] after the
    second loop. *)
Definition weightSum (weights : list (option Q)) (L : t) : Q :=
  (sumWeights (widgets L) weights 0 0).1.

Definition weightCount (weights : list (option Q)) (L : t) : nat :=
  (sumWeights (widgets L) weights 0 0).2.

Definition averageWeight (weights : list (option Q)) (L : t) : Q :=
  weightSum weights L / inject_Z (Z.of_nat (weightCount weights L)).

Definition totalWeight (weights : list (option Q)) (L : t) : Q :=
  addAverage (widgets L) weights (averageWeight weights L)
             (weightSum weights L).

(** [(weight || averageWeight) / totalWeight * availableSize], the content
    size that the weight stands for. *)
Definition share (weights : list (option Q)) (L : t) (weight : option Q)
  : Q :=
  orElse weight (averageWeight weights L) / totalWeight weights L
  * getAvailableSize L.

(** [item => !item.widget.collapsed && !item.widget.isHidden]. *)
Definition expandedVisible (part : Part.t) : bool :=
  negb (Part.collapsed part) && negb (Part.isHidden part).

Inductive Direction := collapse | expand.

(** How [updateCollapsed] leaves: at its first guard, after posting a fit
    request, or after scheduling an animation towards [fullSize]. *)
Inductive Transition :=
| Ignored
| FitRequest
| Animate (direction : Direction) (fullSize : Q) (duration : Q).

(** [updateCollapsed(part, enableAnimation)], up to the first animation
    frame; the part is given by its index in the items.  The frames
    themselves only write [animatedSize] and request fits. *)
Definition updateCollapsed (index : nat) (enableAnimation : bool) (L : t)
  : t * Transition :=
  match items L !! index, parent L with
  | Some part, Some _ =>
      if Part.isHidden part then (L, Ignored)
      else
        let currentSize :=
          match orientation L with
          | horizontal => Part.offsetWidth part
          | vertical => Part.offsetHeight part
          end in
        let part :=
          if Part.collapsed part && existsb expandedVisible (items L)
          then Part.with_uncollapsedSize (Some currentSize) part
          else part in
        let L := with_items (<[index := part]> (items L)) L in
        if negb enableAnimation || Qle_bool (animationDuration L) 0
        then (L, FitRequest)
        else
          let duration := animationDuration L in
          let fullSize :=
            if Part.collapsed part then currentSize - headerSize L
            else
              let fullSize :=
                Qmax (orElse (Part.uncollapsedSize part) 0 - headerSize L)
                     (Part.minSize (partNode L) part) in
              if bool_decide
                   (length (List.filter expandedVisible (items L)) = 1%nat)
              then Qmax fullSize (getAvailableSize L)
              else fullSize in
          (L, Animate (if Part.collapsed part then collapse else expand)
                      fullSize duration)
  | _, _ => (L, Ignored)
  end.
End Layout.

(** ** Arrays *)

(** [Array.prototype.findIndex]; [None] stands for [-1]. *)
Fixpoint findIndex {A} (f : A -> bool) (l : list A) : option nat :=
  match l with
  | [] => None
  | x :: l => if f x then Some 0%nat else S <$> findIndex f l
  end.

(** Phosphor's [insertWidget(index, widget)] on the item list. *)
Definition insertAt {A} (index : nat) (x : A) (l : list A) : list A :=
  take index l ++ x :: drop index l.

(** Phosphor's [ArrayExt.move(array, fromIndex, toIndex)]: the element at
    [fromIndex] ends at [toIndex], the ones between shift by one. *)
Definition moveWidget {A} (fromIndex toIndex : nat) (l : list A) : list A :=
  match l !! fromIndex with
  | Some x => insertAt toIndex x (delete fromIndex l)
  | None => l
  end.

(** ** Persisted state *)

Module PartState.
Record t := mk {
  partId : string;
  collapsed : bool;
  hidden : bool;
  relativeSize : option Q
}.
End PartState.

(** [ViewContainer.State]; [restoreState] tests [state.parts]. *)
Record State := mkState { parts : option (list PartState.t) }.

(** What [addWidget] hands back. *)
Inductive Disposable :=
| DisposableNULL
| DisposableCollection (widget : Widget).


(** ** The container *)

Module Container.
Record t := mk {
  id : string;
  (* where the shell has put the container's node *)
  node : option Area;
  (* [this.panel.layout]; the panel is the layout's parent *)
  layout : Layout.t;
  (* [applicationStateService.state === 'ready'] *)
  ready : bool;
  (* whether [this.attached] is resolved, and the callbacks waiting on it *)
  attached : bool;
  deferred : list (list (option Q));
  (* ids of the parts whose visibility command is registered *)
  commands : list string
}.

Definition with_layout (L : Layout.t) (c : t) : t :=
  mk (id c) (node c) L (ready c) (attached c) (deferred c) (commands c).

Definition with_parts (l : list Part.t) (c : t) : t :=
  with_layout (Layout.with_items l (layout c)) c.

Definition with_deferred (d : list (list (option Q))) (c : t) : t :=
  mk (id c) (node c) (layout c) (ready c) (attached c) d (commands c).

Definition with_commands (l : list string) (c : t) : t :=
  mk (id c) (node c) (layout c) (ready c) (attached c) (deferred c) l.

Definition widgets (c : t) : list Part.t := Layout.widgets (layout c).

(** [get orientation]. *)
Definition orientation (c : t) : Orientation := getOrientation (node c).

(** [get enableAnimation]. *)
Definition enableAnimation (c : t) : bool := ready c.

(** [new ViewContainerPart(wrapped, partId, viewContainerId, options)].
    The node is new, so the setter of [collapsed] sees it outside every
    area; [_collapsed] is still [undefined], which is neither [true] nor
    [false], and nobody listens to the change event yet. *)
Definition newPart (wrapped : Widget) (partId viewContainerId : string)
    (options : WidgetOptions.t) : Part.t :=
  let part :=
    Part.mk wrapped partId (viewContainerId +:+ "--" +:+ widget_id wrapped)
            options false false None None 0 0 0 0 in
  let part :=
    (Part.set_collapsed None
       (isTrue (WidgetOptions.initiallyCollapsed options)) part).1 in
  if isTrue (WidgetOptions.initiallyHidden options) && Part.canHide part
  then Part.hide part
  else part.

(** Assigning [part.collapsed = collapsed] to the part at [index]: the
    setter, then the listener that [addWidget] subscribed,
    [layout.updateCollapsed(part, this.enableAnimation)]. *)
Definition setCollapsed (index : nat) (collapsed : bool) (c : t) : t :=
  match widgets c !! index with
  | Some part =>
      let '(part, fired) :=
        Part.set_collapsed (Layout.partNode (layout c)) collapsed part in
      let c := with_parts (<[index := part]> (widgets c)) c in
      if fired
      then with_layout
             (Layout.updateCollapsed index (enableAnimation c) (layout c)).1 c
      else c
  | None => c
  end.

(** A call of a method of the part at [index] that only writes the part. *)
Definition onPart (index : nat) (f : Part.t -> Part.t) (c : t) : t :=
  with_parts (alter f index (widgets c)) c.

(** [registerPart]. *)
Definition registerPart (toRegister : Part.t) (c : t) : t :=
  if Part.canHide toRegister
  then with_commands (Part.id toRegister :: commands c) c
  else c.

(** [unregisterPart]. *)
Definition unregisterPart (part : Part.t) (c : t) : t :=
  with_commands
    (List.filter (fun i => negb (String.eqb i (Part.id part))) (commands c)) c.

(** [part.options.order === undefined || part.options.order > order]. *)
Definition ordersAfter (order : Q) (part : Part.t) : bool :=
  match WidgetOptions.order (Part.options part) with
  | None => true
  | Some o => Qltb order o
  end.

(** [addWidget(widget, options)]. *)
Definition addWidget (widget : Widget) (options : option WidgetOptions.t)
    (c : t) : t * Disposable :=
  if existsb (fun p => String.eqb (widget_id (Part.wrapped p))
                                  (widget_id widget)) (widgets c)
  then (c, DisposableNULL)
  else
    let partId := default (widget_id widget) (description widget) in
    let newPart :=
      newPart widget partId (id c) (default WidgetOptions.empty options) in
    let c := registerPart newPart c in
    let inserted :=
      match options ≫= WidgetOptions.order with
      | Some order =>
          match findIndex (ordersAfter order) (widgets c) with
          | Some index => insertAt index newPart (widgets c)
          | None => widgets c ++ [newPart]
          end
      | None => widgets c ++ [newPart]
      end in
    (with_parts inserted c, DisposableCollection widget).

(** [removeWidget(widget)]. *)
Definition removeWidget (widget : Widget) (c : t) : t * bool :=
  match findIndex (fun p => String.eqb (widget_id (Part.wrapped p))
                                       (widget_id widget)) (widgets c) with
  | None => (c, false)
  | Some index =>
      match widgets c !! index with
      | Some part =>
          (with_parts (delete index (widgets c)) (unregisterPart part c), true)
      | None => (c, false)
      end
  end.

(** [part => part.id === id]. *)
Definition hasId (id : string) (part : Part.t) : bool :=
  String.eqb (Part.id part) id.

(** [toggleVisibility(part)], the part given by its index. *)
Definition toggleVisibility (index : nat) (c : t) : t :=
  match widgets c !! index with
  | Some part =>
      if Part.canHide part then
        let c := onPart index (Part.setHidden (negb (Part.isHidden part))) c in
        match widgets c !! index with
        | Some part =>
            if negb (Part.isHidden part) then setCollapsed index false c
            else c
        | None => c
        end
      else c
  | None => c
  end.

(** Executing the visibility command that [registerPart] registered for the
    part with id [partId]; an id without a command executes nothing. *)
Definition executeToggle (partId : string) (c : t) : t :=
  if existsb (String.eqb partId) (commands c) then
    match findIndex (hasId partId) (widgets c) with
    | Some index => toggleVisibility index c
    | None => c
    end
  else c.

(** [findPartForAnchor(anchor)]; [closestPart] is the id of the closest
    [div.part] element under the anchor point, if there is one. *)
Definition findPartForAnchor (closestPart : option string) (c : t)
  : option nat :=
  match closestPart with
  | Some elementId =>
      if String.eqb elementId "" then None
      else findIndex (hasId elementId) (widgets c)
  | None => None
  end.

(** [execute] of the global hide command. *)
Definition executeGlobalHide (closestPart : option string) (c : t) : t :=
  match findPartForAnchor closestPart c with
  | Some index =>
      match widgets c !! index with
      | Some toHide =>
          if Part.canHide toHide then onPart index Part.hide c else c
      | None => c
      end
  | None => c
  end.

(** [isVisible] of the global hide command. *)
Definition globalHideIsVisible (closestPart : option string) (c : t) : bool :=
  match findPartForAnchor closestPart c ≫= (fun index => widgets c !! index)
  with
  | Some toHide => Part.canHide toHide && negb (Part.isHidden toHide)
  | None => existsb (fun part => negb (Part.isHidden part)) (widgets c)
  end.

(** [moveBefore(toMovedId, moveBeforeThisId)]. *)
Definition moveBefore (toMovedId moveBeforeThisId : string) (c : t) : t :=
  match findIndex (hasId toMovedId) (widgets c),
        findIndex (hasId moveBeforeThisId) (widgets c) with
  | Some toMoveIndex, Some moveBeforeThisIndex =>
      with_parts (moveWidget toMoveIndex moveBeforeThisIndex (widgets c)) c
  | _, _ => c
  end.

(** The [drop] listener of the part at [index], receiving the id that the
    drag stored. *)
Definition onDrop (moveId : string) (index : nat) (c : t) : t :=
  match widgets c !! index with
  | Some part =>
      if negb (String.eqb moveId "") && negb (String.eqb moveId (Part.id part))
      then moveBefore moveId (Part.id part) c
      else c
  | None => c
  end.

(** The [click] listener of the header of the part at [index]. *)
Definition clickHeader (index : nat) (c : t) : t :=
  match widgets c !! index with
  | Some part => setCollapsed index (negb (Part.collapsed part)) c
  | None => c
  end.

(** [storeState] for one part. *)
Definition storePart (c : t) (availableSize : Q) (part : Part.t)
  : PartState.t :=
  let size := Layout.getPartSize (layout c) part in
  let size :=
    match size with
    | Some s =>
        if truthy size && Qltb Part.HEADER_HEIGHT s
           && bool_decide (orientation c = vertical)
        then Some (s - Part.HEADER_HEIGHT)
        else size
    | None => None
    end in
  PartState.mk (Part.partId part) (Part.collapsed part) (Part.isHidden part)
    match size with
    | Some s =>
        if truthy size && truthy (Some availableSize)
        then Some (s / availableSize)
        else None
    | None => None
    end.

(** [storeState]. *)
Definition storeState (c : t) : State :=
  let parts := widgets c in
  let availableSize := Layout.getAvailableSize (layout c) in
  mkState (Some (map (storePart c availableSize) parts)).

(** [p => p.partId === partState.partId]. *)
Definition matches (partState : PartState.t) (p : Part.t) : bool :=
  String.eqb (Part.partId p) (PartState.partId partState).

(** First loop of [restoreState]: move each stored part forward to the
    index of its entry. *)
Fixpoint reorder (partStates : list PartState.t) (index : nat)
    (widgets : list Part.t) : list Part.t :=
  match partStates with
  | [] => widgets
  | partState :: partStates =>
      let widgets :=
        match findIndex (matches partState) widgets with
        | Some currentIndex =>
            if (index <? currentIndex)%nat
            then moveWidget currentIndex index widgets
            else widgets
        | None => widgets
        end in
      reorder partStates (S index) widgets
  end.

(** Body of the second loop of [restoreState]. *)
Definition restorePart (partStates : list PartState.t) (index : nat) (c : t)
  : t :=
  match widgets c !! index with
  | Some part =>
      match List.find (fun s => matches s part) partStates with
      | Some partState =>
          let c :=
            setCollapsed index
              (PartState.collapsed partState
               || negb (truthy (PartState.relativeSize partState))) c in
          if Part.canHide part
          then onPart index (Part.setHidden (PartState.hidden partState)) c
          else c
      | None =>
          if Part.canHide part then onPart index Part.hide c else c
      end
  | None => c
  end.

(** [restoreState(state)]; the sizes wait for [this.attached]. *)
Definition restoreState (state : State) (c : t) : t :=
  match parts state with
  | Some stored =>
      let partStates :=
        List.filter (fun partState => existsb (matches partState) (widgets c))
                    stored in
      let c := with_parts (reorder partStates 0 (widgets c)) c in
      let c :=
        foldl (fun c index => restorePart partStates index c) c
              (seq 0 (length (widgets c))) in
      with_deferred
        (deferred c ++ [map PartState.relativeSize partStates]) c
  | None => c
  end.

(** [onAfterAttach]; resolving [this.attached] is left to the next frame. *)
Definition onAfterAttach (c : t) : t :=
  let orientation := orientation c in
  let c := with_layout (Layout.with_orientation orientation (layout c)) c in
  let c :=
    match orientation with
    | horizontal =>
        foldl (fun c index => setCollapsed index false c) c
              (seq 0 (length (widgets c)))
    | vertical => c
    end in
  match Layout.parent (layout c) with
  | Some panel =>
      if negb (isAttached panel)
      then with_layout
             (Layout.with_parent
                (Some (mkPanel true (panel_offsetWidth panel)
                               (panel_offsetHeight panel) (node c)))
                (layout c)) c
      else c
  | None => c
  end.

(** The constructor: the layout options, the panel, the given widgets, and
    the sizing by their weights once attached. *)
Definition create (id : string)
    (inputs : list (Widget * option WidgetOptions.t)) : t :=
  let layout :=
    Layout.mk [] (getOrientation None) 2 Part.HEADER_HEIGHT 200
              (Some (mkPanel false 0 0 None)) in
  let c := mk id None layout false false [] [] in
  let c := foldl (fun c input => (addWidget input.1 input.2 c).1) c inputs in
  with_deferred
    [map (fun input => input.2 ≫= WidgetOptions.weight) inputs] c.

(** *** The container in its environment *)

(** The callbacks waiting on [this.attached], in the order they were added. *)
Fixpoint runDeferred (queue : list (list (option Q))) (L : Layout.t)
  : option Layout.t :=
  match queue with
  | [] => Some L
  | weights :: queue =>
      r ← Layout.setPartSizes weights L;
      runDeferred queue r.1
  end.

(** Once [this.attached] is resolved, waiting callbacks run before anything
    else happens. *)
Definition flush (c : t) : option t :=
  if attached c then
    L ← runDeferred (deferred c) (layout c);
    Some (with_deferred [] (with_layout L c))
  else Some c.

(** The shell puts the container's node into [area] (or takes it out); the
    panel's node, once attached to the container's, goes with it. *)
Definition place (area : option Area) (c : t) : t :=
  let L := layout c in
  let panel :=
    match Layout.parent L with
    | Some panel =>
        Some (mkPanel (isAttached panel) (panel_offsetWidth panel)
                      (panel_offsetHeight panel)
                      (if isAttached panel then area else panel_node panel))
    | None => None
    end in
  mk (id c) area (Layout.with_parent panel L) (ready c) (attached c)
     (deferred c) (commands c).

(** New readings of the panel and of the parts after the browser laid the
    page out: extents of the panel, then per part its two extents and its two
    minimum sizes. *)
Definition measure (width height : Q) (readings : list (Q * Q * Q * Q))
    (c : t) : t :=
  let L := layout c in
  let panel :=
    match Layout.parent L with
    | Some panel =>
        Some (mkPanel (isAttached panel) width height (panel_node panel))
    | None => None
    end in
  let read (part : Part.t) (r : Q * Q * Q * Q) : Part.t :=
    Part.mk (Part.wrapped part) (Part.partId part) (Part.id part)
            (Part.options part) (Part._collapsed part) (Part.isHidden part)
            (Part.uncollapsedSize part) (Part.animatedSize part)
            r.1.1.1 r.1.1.2 r.1.2 r.2 in
  let parts :=
    zip_with read (Layout.items L) readings
    ++ drop (length readings) (Layout.items L) in
  with_layout (Layout.with_parent panel (Layout.with_items parts L)) c.

Inductive Op :=
| AddWidget (widget : Widget) (options : option WidgetOptions.t)
| RemoveWidget (widget : Widget)
| RestoreState (state : State)
| ExecuteToggle (partId : string)
| ExecuteGlobalHide (closestPart : option string)
| Drop (moveId : string) (index : nat)
| ClickHeader (index : nat)
| Attach (area : Area)
| Detach
| Frame
| Ready
| Measure (width height : Q) (readings : list (Q * Q * Q * Q)).

(** One event; [None] when a sizing leaves the rationals. *)
Definition step (op : Op) (c : t) : option t :=
  flush
    match op with
    | AddWidget widget options => (addWidget widget options c).1
    | RemoveWidget widget => (removeWidget widget c).1
    | RestoreState state => restoreState state c
    | ExecuteToggle partId => executeToggle partId c
    | ExecuteGlobalHide closestPart => executeGlobalHide closestPart c
    | Drop moveId index => onDrop moveId index c
    | ClickHeader index => clickHeader index c
    | Attach area => onAfterAttach (place (Some area) c)
    | Detach => place None c
    | Frame =>
        (* the frame that [onAfterAttach] requested resolves [attached] *)
        match Layout.parent (layout c) with
        | Some panel =>
            if isAttached panel
            then mk (id c) (node c) (layout c) (ready c) true (deferred c)
                    (commands c)
            else c
        | None => c
        end
    | Ready =>
        mk (id c) (node c) (layout c) true (attached c) (deferred c)
           (commands c)
    | Measure width height readings => measure width height readings c
    end.

Fixpoint run (ops : list Op) (c : t) : option t :=
  match ops with
  | [] => Some c
  | op :: ops => c ← step op c; run ops c
  end.
End Container.

(** ** Worked containers *)

Definition plainPart (name : string) : Part.t :=
  Part.mk (mkWidget name None) name ("c--" +:+ name) WidgetOptions.empty
          false false None None 0 0 0 0.

Definition attachedPanel (height : Q) : SplitPanel :=
  mkPanel true 300 height (Some SideArea).

(** Three expanded parts in a vertical layout whose available size is 1000. *)
Definition threeParts : Layout.t :=
  Layout.mk [plainPart "p1"; plainPart "p2"; plainPart "p3"]
            vertical 2 22 200 (Some (attachedPanel 1070)).

(** ** Specification vocabulary and worked examples *)


Definition readonly (p : Part.t) : Widget * string * string * WidgetOptions.t :=
  (Part.wrapped p, Part.partId p, Part.id p, Part.options p).

(** What an assignment to [collapsed] does to the flags of the part. *)
Definition assigned (node : option Area) (collapsed : bool)
    (p p' : Part.t) : Prop :=
  readonly p' = readonly p
  /\ Part.isHidden p' = Part.isHidden p
  /\ Part.collapsed p'
     = if bool_decide (getOrientation node = horizontal) && collapsed
       then Part.collapsed p else collapsed.

(** What [restoreState] does to the flags of one part, given the entries
    that were kept. *)
Definition restored (partStates : list PartState.t) (node : option Area)
    (p p' : Part.t) : Prop :=
  readonly p' = readonly p
  /\ match List.find (fun s => Container.matches s p) partStates with
     | Some s =>
         let collapsed :=
           PartState.collapsed s || negb (truthy (PartState.relativeSize s)) in
         Part.collapsed p'
         = (if bool_decide (getOrientation node = horizontal) && collapsed
            then Part.collapsed p else collapsed)
         /\ Part.isHidden p'
            = (if Part.canHide p then PartState.hidden s else Part.isHidden p)
     | None =>
         Part.collapsed p' = Part.collapsed p
         /\ Part.isHidden p' = (Part.canHide p || Part.isHidden p)
     end.

(** The entries that [restoreState] keeps. *)
Definition live (c : Container.t) (partState : PartState.t) : bool :=
  existsb (Container.matches partState) (Container.widgets c).

(** What a part looks like after [restoreState(storeState())]. *)
Definition roundTripped (c : Container.t) (p p' : Part.t) : Prop :=
  readonly p' = readonly p
  /\ Part.isHidden p' = Part.isHidden p
  /\ Part.collapsed p'
     = Part.collapsed p
       || (negb (truthy (PartState.relativeSize
                           (Container.storePart c
                              (Layout.getAvailableSize (Container.layout c)) p)))
           && negb (bool_decide
                      (getOrientation (Layout.partNode (Container.layout c))
                       = horizontal))).

(** A part that cannot be hidden keeps its hidden flag. *)
Definition unhideableKept (p p' : Part.t) : Prop :=
  readonly p' = readonly p
  /\ (Part.canHide p = false -> Part.isHidden p' = Part.isHidden p).

(** In which ways an operation may change the sequence of parts. *)
Definition partsKept (c c' : Container.t) : Prop :=
  exists l, Container.widgets c ≡ₚ l
            /\ Forall2 unhideableKept l (Container.widgets c').

Definition wid (p : Part.t) : string := widget_id (Part.wrapped p).

(** [part.options.order === undefined || part.options.order > k] as a
    proposition. *)
Definition comesAfter (k : Q) (p : Part.t) : Prop :=
  match WidgetOptions.order (Part.options p) with
  | None => True
  | Some o => k < o
  end.

Definition wraps (widget : Widget) (c : Container.t) : bool :=
  existsb (fun p => String.eqb (wid p) (widget_id widget))
          (Container.widgets c).

Definition uniqueWidgets (c : Container.t) : Prop :=
  NoDup (map wid (Container.widgets c)).

Definition unhideableVisible (c : Container.t) : Prop :=
  Forall (fun p => Part.canHide p = false -> Part.isHidden p = false)
         (Container.widgets c).

Definition ordered (name : string) (k : Q) : option WidgetOptions.t :=
  Some (WidgetOptions.mk (Some k) None None None None).

Definition orderedContainer : Container.t :=
  Container.create "vc"
    [(mkWidget "a" None, ordered "a" 1); (mkWidget "b" None, ordered "b" 3);
     (mkWidget "c" None, None)].

(** [m] is the larger of [a] and [b]. *)
Definition largerOf (a b m : Q) : Prop :=
  (m = a \/ m = b) /\ a <= m /\ b <= m.

(** The part at [index] is the only one that is expanded and visible. *)
Definition onlyExpandedVisible (index : nat) (L : Layout.t) : Prop :=
  forall j q, Layout.items L !! j = Some q ->
              Layout.expandedVisible q = true -> j = index.

(** A layout with one collapsed and one expanded part. *)
Definition twoParts (uncollapsedSize : option Q) (otherCollapsed : bool)
  : Layout.t :=
  Layout.mk
    [Part.mk (mkWidget "p1" None) "p1" "c--p1" WidgetOptions.empty
             false false uncollapsedSize None 300 22 0 30;
     Part.mk (mkWidget "p2" None) "p2" "c--p2" WidgetOptions.empty
             otherCollapsed false None None 300 400 0 0]
    vertical 2 22 200 (Some (attachedPanel 446)).

Definition collapsedOptions : WidgetOptions.t :=
  WidgetOptions.mk None None (Some true) None None.

(** One expanded part, the container not attached anywhere. *)
Definition detachedContainer : Container.t :=
  Container.create "vc" [(mkWidget "a" None, None)].

(** One expanded part in the main area. *)
Definition mainAreaContainer : Container.t :=
  Container.onAfterAttach
    (Container.place (Some MainArea) detachedContainer).

(** Two parts in a side area, laid out and measured; the first one starts
    hidden and has never been sized. *)
Definition savedContainer : Container.t :=
  Container.measure 300 500 [(300, 0, 0, 0); (300, 478, 0, 0)]
    (Container.onAfterAttach
       (Container.place (Some SideArea)
          (Container.create "vc"
             [(mkWidget "a" None,
               Some (WidgetOptions.mk None None None None (Some true)));
              (mkWidget "b" None, None)]))).

(** What the claim expects of the collapsed flag after [restoreState]. *)
Definition claimedCollapsed (s : PartState.t) : bool :=
  PartState.collapsed s || bool_decide (PartState.relativeSize s = None).

Definition hiddenOptions : WidgetOptions.t :=
  WidgetOptions.mk None None (Some true) None (Some true).

(** One part that starts hidden and collapsed, the container in a side
    area. *)
Definition hiddenContainer : Container.t :=
  Container.onAfterAttach
    (Container.place (Some SideArea)
       (Container.create "vc" [(mkWidget "a" None, Some hiddenOptions)])).

Definition pinnedOptions : WidgetOptions.t :=
  WidgetOptions.mk None None None (Some false) (Some true).

Definition pinnedRun : option Container.t :=
  Container.run
    [Container.AddWidget (mkWidget "p" None) (Some pinnedOptions);
     Container.ExecuteGlobalHide (Some "vc--p");
     Container.ExecuteToggle "vc--p";
     Container.RestoreState
       (mkState (Some [PartState.mk "p" false true None]))]
    (Container.create "vc" []).

(** * Properties *)

Section Sizing.
Import Layout.

Lemma applyWeights_cons L avg total avail index position part next rest w ws :
  Layout.applyWeights L avg total avail index position
                      (part :: next :: rest) (w :: ws)
  = visit ← Layout.sizePart L avg total avail index position part w;
    later ← Layout.applyWeights L avg total avail (S index) visit.1.2
                                (next :: rest) ws;
    Some (visit.1.1 :: later.1, visit.2 ++ later.2).
Proof. reflexivity. Qed.

Lemma applyWeights_last L avg total avail index position part ws :
  Layout.applyWeights L avg total avail index position [part] ws
  = Some ([part], []).
Proof. by destruct ws. Qed.

Lemma applyWeights_nil_weights L avg total avail index position parts :
  Layout.applyWeights L avg total avail index position parts []
  = Some (parts, []).
Proof. by destruct parts as [|? [|? ?]]. Qed.

Lemma jsdiv_nonzero a b : ¬ b == 0 -> jsdiv a b = Some (a / b).
Proof.
  intros Hb. unfold jsdiv. destruct (Qeq_bool b 0) eqn:E; [|done].
  by apply Qeq_bool_iff in E.
Qed.

(** An expanded, visible part is sized by its share. *)
Lemma sizePart_expanded L avg total avail index position part w :
  expandedVisible part = true -> ¬ total == 0 ->
  exists position' handle,
    sizePart L avg total avail index position part w
    = Some (part, position',
            [mkStep index (Some (orElse w avg / total * avail))
               (Some (Qmax (orElse w avg / total * avail)
                           (Part.minSize (partNode L) part)))
               handle]).
Proof.
  unfold expandedVisible, sizePart. intros Hev Htotal.
  apply andb_true_iff in Hev as [Hc Hh].
  rewrite Hh. apply negb_true_iff in Hc. rewrite Hc.
  rewrite jsdiv_nonzero by done. cbn [mbind option_bind].
  unfold Qmax. eauto.
Qed.

Lemma applyWeights_expanded L avg total avail parts :
  Forall (fun part => expandedVisible part = true) parts ->
  ¬ total == 0 ->
  forall weights index position,
  exists steps,
    applyWeights L avg total avail index position parts weights
    = Some (parts, steps)
    /\ map step_index steps
       = seq index (length (take (length parts - 1) weights))
    /\ map step_share steps
       = map (fun w => Some (orElse w avg / total * avail))
             (take (length parts - 1) weights)
    /\ map step_contentSize steps
       = zip_with (fun part w =>
                     Some (Qmax (orElse w avg / total * avail)
                                (Part.minSize (partNode L) part)))
                  parts (take (length parts - 1) weights).
Proof.
  intros Hparts Htotal.
  induction Hparts as [|part parts Hpart Hparts IH]; intros weights index position.
  { exists []. by destruct weights. }
  destruct parts as [|next rest].
  { exists []. rewrite applyWeights_last. done. }
  destruct weights as [|w ws].
  { exists []. done. }
  rewrite applyWeights_cons.
  destruct (sizePart_expanded L avg total avail index position part w Hpart Htotal)
    as (position' & handle & ->).
  cbn [mbind option_bind fst snd].
  destruct (IH ws (S index) position') as (steps & -> & Hi & Hs & Hc).
  cbn [mbind option_bind fst snd].
  eexists. split; [done|].
  cbn [length Nat.sub] in *. rewrite Nat.sub_0_r in *.
  cbn [take map app zip_with seq length]. rewrite Hi, Hs, Hc. done.
Qed.

Lemma orElse_split w avg :
  orElse w avg == orElse w 0 + (if truthy w then 0 else avg).
Proof.
  destruct w as [w|]; simpl; [|ring].
  destruct (Qeq_bool w 0); simpl; ring.
Qed.

Lemma sumWeights_expanded parts :
  Forall (fun part => expandedVisible part = true) parts ->
  forall weights total count, length weights = length parts ->
  (sumWeights parts weights total count).1
  == total + Qsum (map (fun w => orElse w 0) weights).
Proof.
  induction 1 as [|part parts Hpart _ IH]; intros [|w ws] total count Hlen;
    try discriminate; simpl.
  { ring. }
  apply andb_true_iff in Hpart as [Hc Hh]. rewrite Hc, Hh, !andb_true_r.
  injection Hlen as Hlen.
  destruct (truthy w) eqn:Hw.
  - rewrite IH by done. ring.
  - rewrite IH by done.
    assert (orElse w 0 == 0) as ->; [|ring].
    destruct w as [w|]; simpl in *; [|reflexivity].
    by destruct (Qeq_bool w 0).
Qed.

Lemma addAverage_expanded avg parts :
  Forall (fun part => expandedVisible part = true) parts ->
  forall weights total, length weights = length parts ->
  addAverage parts weights avg total
  == total + Qsum (map (fun w => if truthy w then 0 else avg) weights).
Proof.
  induction 1 as [|part parts Hpart _ IH]; intros [|w ws] total Hlen;
    try discriminate; simpl.
  { ring. }
  apply andb_true_iff in Hpart as [Hc Hh]. rewrite Hc, Hh, !andb_true_r.
  injection Hlen as Hlen.
  destruct (truthy w) eqn:Hw; simpl; rewrite IH by done; ring.
Qed.

Lemma Qsum_scaled (f : option Q -> Q) total avail weights :
  Qsum (map (fun w => f w / total * avail) weights)
  == Qsum (map f weights) / total * avail.
Proof.
  induction weights as [|w ws IH]; simpl.
  - unfold Qdiv. ring.
  - rewrite IH. unfold Qdiv. ring.
Qed.

Lemma Qsum_orElse avg weights :
  Qsum (map (fun w => orElse w avg) weights)
  == Qsum (map (fun w => orElse w 0) weights)
     + Qsum (map (fun w => if truthy w then 0 else avg) weights).
Proof.
  induction weights as [|w ws IH]; simpl; [ring|].
  rewrite IH, (orElse_split w avg). ring.
Qed.

Lemma shares_sum weights L :
  Forall (fun part => expandedVisible part = true) (items L) ->
  length weights = length (items L) ->
  ¬ totalWeight weights L == 0 ->
  Qsum (map (share weights L) weights) == getAvailableSize L.
Proof.
  intros Hparts Hlen Htotal. unfold share.
  rewrite Qsum_scaled.
  assert (Qsum (map (fun w => orElse w (averageWeight weights L)) weights)
          == totalWeight weights L) as ->.
  { rewrite Qsum_orElse. unfold totalWeight, weightSum, widgets.
    rewrite addAverage_expanded, sumWeights_expanded by done. ring. }
  field. done.
Qed.

Lemma with_items_same L : with_items (items L) L = L.
Proof. by destruct L. Qed.

(** C1, as the code has it.  When all N parts are visible and expanded, there
    are N weights of which at least one is not zero, and neither the total
    weight nor the available size is zero, [setPartSizes] leaves the parts as
    they are and visits every part but the last: the part at index [i] gets
    the content size [(weight || averageWeight) / totalWeight * availableSize],
    raised to its minimum content size.  The last part is never sized by the
    loop.  Over all N parts, the last one included, the sizes before the
    raising sum to the available size. *)
Theorem setPartSizes_shares weights L :
  Forall (fun part => expandedVisible part = true) (items L) ->
  length weights = length (items L) ->
  weightCount weights L ≠ 0%nat ->
  ¬ getAvailableSize L == 0 ->
  ¬ totalWeight weights L == 0 ->
  exists steps,
    setPartSizes weights L = Some (L, steps)
    /\ map step_index steps = seq 0 (length (items L) - 1)
    /\ map step_share steps
       = map (fun w => Some (share weights L w))
             (take (length (items L) - 1) weights)
    /\ map step_contentSize steps
       = zip_with (fun part w =>
                     Some (Qmax (share weights L w)
                                (Part.minSize (partNode L) part)))
                  (items L) (take (length (items L) - 1) weights)
    /\ Qsum (map (share weights L) weights) == getAvailableSize L.
Proof.
  intros Hparts Hlen Hcount Havail Htotal.
  destruct (applyWeights_expanded L (averageWeight weights L)
              (totalWeight weights L) (getAvailableSize L) (items L)
              Hparts Htotal weights 0%nat 0)
    as (steps & Happly & Hi & Hs & Hc).
  exists steps. split; [|split; [|split; [|split]]].
  - unfold setPartSizes, widgets.
    unfold totalWeight, averageWeight, weightSum, weightCount, widgets
      in Happly, Hcount.
    destruct (sumWeights (items L) weights 0 0) as [sum count].
    cbn [fst snd] in Happly, Hcount.
    rewrite bool_decide_eq_false_2 by done.
    destruct (Qeq_bool (getAvailableSize L) 0) eqn:E.
    { by apply Qeq_bool_iff in E. }
    cbn [orb]. rewrite Happly. cbn [mbind option_bind].
    by rewrite with_items_same.
  - rewrite Hi, length_take. f_equal. lia.
  - done.
  - done.
  - by apply shares_sum.
Qed.

(** C1 at the scenario of three parts weighted 0.5, 0.3 and 0.2 with 1000
    available. *)
Lemma setPartSizes_shares_witness :
  exists steps,
    setPartSizes [Some 0.5; Some 0.3; Some 0.2] threeParts
    = Some (threeParts, steps)
    /\ map step_index steps = [0; 1]%nat
    /\ Qsum (map (share [Some 0.5; Some 0.3; Some 0.2] threeParts)
                 [Some 0.5; Some 0.3; Some 0.2]) == 1000.
Proof.
  destruct (setPartSizes_shares [Some 0.5; Some 0.3; Some 0.2] threeParts)
    as (steps & H1 & H2 & _ & _ & H5).
  - repeat constructor.
  - reflexivity.
  - vm_compute. lia.
  - vm_compute. discriminate.
  - vm_compute. discriminate.
  - exists steps. split; [exact H1|]. split; [exact H2|]. exact H5.
Defined.

End Sizing.









(** *** Arrays *)

Lemma findIndex_Some {A} (f : A -> bool) l i :
  findIndex f l = Some i ->
  exists x, l !! i = Some x /\ f x = true
            /\ forall j y, (j < i)%nat -> l !! j = Some y -> f y = false.
Proof.
  revert i. induction l as [|a l IH]; intros i; simpl; [done|].
  destruct (f a) eqn:Ha.
  - intros [= <-]. exists a. repeat split; [done|]. intros j y Hj. lia.
  - destruct (findIndex f l) as [k|]; [|done]. simpl. intros [= <-].
    destruct (IH k eq_refl) as (x & Hx & Hfx & Hlt).
    exists x. repeat split; [done..|].
    intros [|j] y Hj; simpl; [by intros [= <-]|]. apply Hlt. lia.
Qed.

Lemma findIndex_None {A} (f : A -> bool) l :
  findIndex f l = None -> Forall (fun x => f x = false) l.
Proof.
  induction l as [|a l IH]; simpl; [constructor|].
  destruct (f a) eqn:Ha; [done|].
  destruct (findIndex f l); [done|]. intros _. constructor; auto.
Qed.

Lemma findIndex_existsb {A} (f : A -> bool) l :
  existsb f l = true -> is_Some (findIndex f l).
Proof.
  induction l as [|a l IH]; simpl; [done|].
  destruct (f a); [eauto|]. simpl. intros H. destruct (IH H) as [k ->].
  simpl. eauto.
Qed.

Lemma insertAt_Permutation {A} i (x : A) l : insertAt i x l ≡ₚ x :: l.
Proof.
  unfold insertAt. rewrite <-Permutation_middle.
  by rewrite take_drop.
Qed.

Lemma moveWidget_Permutation {A} i j (l : list A) : moveWidget i j l ≡ₚ l.
Proof.
  unfold moveWidget. destruct (l !! i) as [x|] eqn:E; [|done].
  rewrite insertAt_Permutation. symmetry. by apply delete_Permutation.
Qed.

Lemma reorder_Permutation partStates : forall index widgets,
  Container.reorder partStates index widgets ≡ₚ widgets.
Proof.
  induction partStates as [|s partStates IH]; intros index widgets; simpl;
    [done|].
  rewrite IH.
  destruct (findIndex _ _); [|done].
  destruct (_ <? _)%nat; [|done]. apply moveWidget_Permutation.
Qed.

Lemma alter_insert_eq {A} (f : A -> A) i x (l : list A) :
  alter f i (<[i:=x]> l) = <[i:=f x]> l.
Proof. by rewrite !list_insert_alter, list_alter_alter_eq. Qed.

Lemma alter_as_insert {A} (f : A -> A) i x (l : list A) :
  l !! i = Some x -> alter f i l = <[i:=f x]> l.
Proof.
  intros Hx. rewrite list_insert_alter.
  apply list_alter_ext; [|done]. intros y Hy. congruence.
Qed.

Lemma insert_insert_same {A} i (x y : A) (l : list A) :
  <[i:=x]> (<[i:=y]> l) = <[i:=x]> l.
Proof. by rewrite !list_insert_alter, list_alter_alter_eq. Qed.

(** *** The parts of a container *)

Lemma with_parts_with_parts l l' c :
  Container.with_parts l (Container.with_parts l' c) = Container.with_parts l c.
Proof. reflexivity. Qed.

Lemma with_parts_same c : Container.with_parts (Container.widgets c) c = c.
Proof. by destruct c as [? ? [] ? ? ? ?]. Qed.

(** [updateCollapsed] writes at most the [uncollapsedSize] of its part. *)
Lemma updateCollapsed_items index enableAnimation L :
  (Layout.updateCollapsed index enableAnimation L).1 = L
  \/ exists part size,
       Layout.items L !! index = Some part
       /\ (Layout.updateCollapsed index enableAnimation L).1
          = Layout.with_items
              (<[index:=Part.with_uncollapsedSize size part]> (Layout.items L)) L.
Proof.
  unfold Layout.updateCollapsed.
  destruct (Layout.items L !! index) as [part|] eqn:Hpart; [|by left].
  destruct (Layout.parent L); [|by left].
  destruct (Part.isHidden part); [by left|].
  right. exists part.
  exists (if Part.collapsed part && existsb Layout.expandedVisible (Layout.items L)
          then Some (match Layout.orientation L with
                     | horizontal => Part.offsetWidth part
                     | vertical => Part.offsetHeight part
                     end)
          else Part.uncollapsedSize part).
  split; [done|].
  assert (forall (b : bool) s p,
             (if b then Part.with_uncollapsedSize (Some s) p else p)
             = Part.with_uncollapsedSize
                 (if b then Some s else Part.uncollapsedSize p) p) as Hif.
  { intros [] ? q; [done|by destruct q]. }
  rewrite Hif.
  by destruct (negb enableAnimation || _).
Qed.

Lemma set_collapsed_assigned node collapsed p :
  assigned node collapsed p (Part.set_collapsed node collapsed p).1.
Proof.
  unfold Part.set_collapsed, assigned, Part.collapsed.
  destruct (bool_decide (Part._collapsed p = collapsed)) eqn:E1; simpl.
  - apply bool_decide_eq_true in E1. rewrite E1. by destruct (_ && _).
  - destruct (bool_decide (getOrientation node = horizontal) && collapsed);
      done.
Qed.

Lemma setCollapsed_spec index collapsed l c p :
  l !! index = Some p ->
  exists p',
    Container.setCollapsed index collapsed (Container.with_parts l c)
    = Container.with_parts (<[index:=p']> l) c
    /\ assigned (Layout.partNode (Container.layout c)) collapsed p p'.
Proof.
  intros Hp. unfold Container.setCollapsed.
  change (Container.widgets (Container.with_parts l c)) with l. rewrite Hp.
  pose proof (set_collapsed_assigned
                (Layout.partNode (Container.layout c)) collapsed p) as Ha.
  change (Layout.partNode (Container.layout (Container.with_parts l c)))
    with (Layout.partNode (Container.layout c)).
  destruct (Part.set_collapsed _ collapsed p) as [p1 fired]. simpl in Ha.
  destruct fired; [|by eauto].
  rewrite with_parts_with_parts.
  set (c1 := Container.with_parts (<[index:=p1]> l) c).
  destruct (updateCollapsed_items index (Container.enableAnimation c1)
              (Container.layout c1)) as [->|(part & size & Hpart & ->)].
  - exists p1. split; [|done]. by destruct c as [? ? [] ? ? ? ?].
  - exists (Part.with_uncollapsedSize size part).
    change (Layout.items (Container.layout c1)) with (<[index:=p1]> l) in *.
    rewrite list_lookup_insert_eq in Hpart
      by (by apply lookup_lt_Some in Hp).
    injection Hpart as <-.
    split.
    + rewrite insert_insert_same. reflexivity.
    + destruct Ha as (? & ? & ?). by destruct p1.
Qed.

Lemma setCollapsed_out index collapsed c :
  Container.widgets c !! index = None ->
  Container.setCollapsed index collapsed c = c.
Proof. unfold Container.setCollapsed. by intros ->. Qed.

(** A loop over the indices of the parts whose body rewrites the part at
    its index rewrites every part once. *)
Lemma foldl_indices (P : Part.t -> Part.t -> Prop)
    (f : nat -> Container.t -> Container.t) c :
  (forall l i p, l !! i = Some p ->
     exists p', f i (Container.with_parts l c)
                = Container.with_parts (<[i:=p']> l) c /\ P p p') ->
  forall rest done,
  exists rest',
    foldl (fun c i => f i c) (Container.with_parts (done ++ rest) c)
          (seq (length done) (length rest))
    = Container.with_parts (done ++ rest') c
    /\ Forall2 P rest rest'.
Proof.
  intros Hf. induction rest as [|p rest IH]; intros done.
  { exists []. by split. }
  cbn [length seq foldl].
  destruct (Hf (done ++ p :: rest) (length done) p) as (p' & -> & Hp).
  { by rewrite list_lookup_middle. }
  rewrite insert_app_r_alt, Nat.sub_diag by done. cbn [insert list_insert].
  destruct (IH (done ++ [p'])) as (rest' & Hrest & HP).
  rewrite length_app, Nat.add_1_r, <-(assoc_L (++)) in Hrest.
  cbn [app] in Hrest. rewrite Hrest.
  exists (p' :: rest'). rewrite <-(assoc_L (++)). by split; [|constructor].
Qed.

Lemma foldl_indices_all (P : Part.t -> Part.t -> Prop)
    (f : nat -> Container.t -> Container.t) c :
  (forall l i p, l !! i = Some p ->
     exists p', f i (Container.with_parts l c)
                = Container.with_parts (<[i:=p']> l) c /\ P p p') ->
  exists l',
    foldl (fun c i => f i c) c (seq 0 (length (Container.widgets c)))
    = Container.with_parts l' c
    /\ Forall2 P (Container.widgets c) l'.
Proof.
  intros Hf.
  destruct (foldl_indices P f c Hf (Container.widgets c) []) as (l' & H & HP).
  cbn [app length] in H. rewrite with_parts_same in H. eauto.
Qed.

Lemma onPart_with_parts index f l c p :
  l !! index = Some p ->
  Container.onPart index f (Container.with_parts l c)
  = Container.with_parts (<[index:=f p]> l) c.
Proof.
  intros Hp. unfold Container.onPart.
  change (Container.widgets (Container.with_parts l c)) with l.
  by rewrite (alter_as_insert f index p), with_parts_with_parts.
Qed.

Lemma restorePart_spec partStates index l c p :
  l !! index = Some p ->
  exists p',
    Container.restorePart partStates index (Container.with_parts l c)
    = Container.with_parts (<[index:=p']> l) c
    /\ restored partStates (Layout.partNode (Container.layout c)) p p'.
Proof.
  intros Hp. unfold Container.restorePart, restored.
  change (Container.widgets (Container.with_parts l c)) with l. rewrite Hp.
  assert (index < length l)%nat as Hlt by by apply lookup_lt_Some in Hp.
  destruct (List.find _ partStates) as [s|].
  - destruct (setCollapsed_spec index
                (PartState.collapsed s
                 || negb (truthy (PartState.relativeSize s))) l c p Hp)
      as (p1 & -> & Hr & Hh & Hc).
    destruct (Part.canHide p) eqn:Hcan.
    + rewrite (onPart_with_parts _ _ _ _ p1)
        by (by rewrite list_lookup_insert_eq).
      rewrite insert_insert_same. eexists. split; [done|].
      destruct (PartState.hidden s); destruct p1; simpl in *; done.
    + exists p1. by repeat split.
  - destruct (Part.canHide p) eqn:Hcan.
    + rewrite (onPart_with_parts _ _ _ _ p) by done.
      eexists. split; [done|]. by destruct p.
    + exists p. rewrite list_insert_id by done. by repeat split.
Qed.

Lemma find_filter {A} (f g : A -> bool) l :
  (forall x, f x = true -> g x = true) ->
  List.find f (List.filter g l) = List.find f l.
Proof.
  intros Hfg. induction l as [|a l IH]; simpl; [done|].
  destruct (g a) eqn:Hg; simpl.
  - by rewrite IH.
  - destruct (f a) eqn:Hf; [|done]. apply Hfg in Hf. congruence.
Qed.

Lemma filter_filter_same {A} (g : A -> bool) l :
  List.filter g (List.filter g l) = List.filter g l.
Proof.
  induction l as [|a l IH]; simpl; [done|].
  destruct (g a) eqn:Hg; simpl; [|done]. by rewrite Hg, IH.
Qed.

Lemma existsb_elem {A} (f : A -> bool) l x :
  x ∈ l -> f x = true -> existsb f l = true.
Proof.
  intros Hx Hf. apply existsb_exists. exists x. split; [|done].
  by apply list_elem_of_In.
Qed.

(** [restoreState] as a whole: a permutation of the parts, each with its
    flags restored from the first stored entry with its [partId]. *)
Lemma restoreState_parts stored c :
  exists l',
    Container.restoreState (mkState (Some stored)) c
    = Container.with_deferred
        (Container.deferred c
         ++ [map PartState.relativeSize (List.filter (live c) stored)])
        (Container.with_parts l' c)
    /\ Forall2 (restored stored (Layout.partNode (Container.layout c)))
               (Container.reorder (List.filter (live c) stored) 0
                                  (Container.widgets c)) l'.
Proof.
  unfold Container.restoreState. cbn [parts]. cbv zeta.
  change (fun partState => existsb (Container.matches partState)
                                   (Container.widgets c)) with (live c).
  set (ps := List.filter (live c) stored).
  set (l1 := Container.reorder ps 0 (Container.widgets c)).
  destruct (foldl_indices_all
              (restored ps (Layout.partNode (Container.layout c)))
              (Container.restorePart ps) (Container.with_parts l1 c))
    as (l' & Hl' & HP).
  { intros l i p Hp. rewrite with_parts_with_parts.
    apply (restorePart_spec ps i l c p Hp). }
  exists l'. split.
  - rewrite Hl'. reflexivity.
  - change (Container.widgets (Container.with_parts l1 c)) with l1 in HP.
    apply Forall2_same_length_lookup. apply Forall2_same_length_lookup in HP.
    destruct HP as [Hlen HP]. split; [done|].
    intros i p p' Hp Hp'. specialize (HP i p p' Hp Hp').
    unfold restored in *. unfold ps in HP.
    rewrite find_filter in HP; [done|].
    intros s Hs. unfold live.
    apply (existsb_elem _ _ p); [|done].
    assert (p ∈ l1) as Hin by by eapply list_elem_of_lookup_2.
    unfold l1 in Hin. by rewrite reorder_Permutation in Hin.
Qed.

(** C6, as the code has it.  Stored entries without a live part change
    nothing.  The parts are permuted, and every live part ends as [restored]
    says: with a stored entry, collapsed is the stored flag or-ed with "the
    relative size is absent or zero", unless that is [true] and the node of
    the part sits in a horizontal area, where collapsed stays as it was;
    hidden is the stored flag if the part can hide; without a stored entry
    the part is hidden if it can hide and unchanged otherwise. *)
Theorem restoreState_flags stored c :
  let c' := Container.restoreState (mkState (Some stored)) c in
  Container.restoreState (mkState (Some (List.filter (live c) stored))) c = c'
  /\ exists l,
       Container.widgets c ≡ₚ l
       /\ Forall2 (restored stored (Layout.partNode (Container.layout c)))
                  l (Container.widgets c').
Proof.
  cbv zeta. split.
  - unfold Container.restoreState. cbn [parts]. cbv zeta.
    change (fun partState => existsb (Container.matches partState)
                                     (Container.widgets c)) with (live c).
    by rewrite filter_filter_same.
  - destruct (restoreState_parts stored c) as (l' & -> & HP).
    eexists. split; [|exact HP]. symmetry. apply reorder_Permutation.
Qed.

(** *** Storing, then restoring *)

Lemma reorder_stored (store : Part.t -> PartState.t) l :
  (forall p, PartState.partId (store p) = Part.partId p) ->
  forall later k, drop k l = later ->
  Container.reorder (map store later) k l = l.
Proof.
  intros Hstore. induction later as [|p rest IH]; intros k Hdrop; [done|].
  assert (l !! k = Some p) as Hp.
  { rewrite <-(Nat.add_0_r k), <-lookup_drop, Hdrop. done. }
  assert (drop (S k) l = rest) as Hrest.
  { rewrite (drop_S _ _ _ Hp) in Hdrop. congruence. }
  cbn [map Container.reorder].
  destruct (findIndex (Container.matches (store p)) l) as [j|] eqn:Hj.
  - apply findIndex_Some in Hj as (x & _ & _ & Hmin).
    destruct (Nat.ltb_spec k j) as [Hlt|_]; [|by apply IH].
    specialize (Hmin k p Hlt Hp).
    unfold Container.matches in Hmin. rewrite Hstore in Hmin.
    by rewrite String.eqb_refl in Hmin.
  - by apply IH.
Qed.

Lemma find_stored (store : Part.t -> PartState.t) l p :
  (forall p, PartState.partId (store p) = Part.partId p) ->
  NoDup (map Part.partId l) -> p ∈ l ->
  List.find (fun s => Container.matches s p) (map store l) = Some (store p).
Proof.
  intros Hstore. induction l as [|a l IH]; intros Hnd Hin.
  { by apply elem_of_nil in Hin. }
  cbn [map] in Hnd. apply NoDup_cons in Hnd as [Ha Hnd].
  cbn [map List.find]. unfold Container.matches at 1. rewrite Hstore.
  destruct (String.eqb_spec (Part.partId p) (Part.partId a)) as [Heq|Hne].
  - apply elem_of_cons in Hin as [->|Hin]; [done|].
    destruct Ha. rewrite <-Heq. by apply list_elem_of_fmap_2.
  - apply elem_of_cons in Hin as [->|Hin]; [done|]. by apply IH.
Qed.

Lemma filter_all {A} (g : A -> bool) l :
  Forall (fun x => g x = true) l -> List.filter g l = l.
Proof.
  induction 1 as [|a l Ha _ IH]; simpl; [done|]. by rewrite Ha, IH.
Qed.

(** C2, as the code has it.  When no two parts share a [partId],
    [restoreState(storeState())] keeps the order of the parts and the hidden
    flag of each; a part keeps its collapsed flag if it was collapsed, if its
    stored relative size is present and not zero, or if its node sits in a
    horizontal area, and comes back collapsed otherwise. *)
Theorem restoreState_storeState c :
  NoDup (map Part.partId (Container.widgets c)) ->
  Forall2 (roundTripped c) (Container.widgets c)
          (Container.widgets
             (Container.restoreState (Container.storeState c) c)).
Proof.
  intros Hnd. unfold Container.storeState. cbv zeta.
  set (store := Container.storePart c
                  (Layout.getAvailableSize (Container.layout c))).
  assert (forall p, PartState.partId (store p) = Part.partId p) as Hstore
    by done.
  destruct (restoreState_parts (map store (Container.widgets c)) c)
    as (l' & -> & HP).
  rewrite filter_all in HP.
  2:{ apply Forall_forall. intros s Hs.
      apply list_elem_of_fmap in Hs as (p & -> & Hp). unfold live.
      apply (existsb_elem _ _ p); [done|].
      unfold Container.matches. rewrite Hstore. apply String.eqb_refl. }
  rewrite (reorder_stored store) in HP by done.
  cbn [Container.widgets Container.with_deferred Container.with_parts
       Container.with_layout Container.layout Layout.widgets
       Layout.with_items Layout.items].
  apply Forall2_same_length_lookup.
  apply Forall2_same_length_lookup in HP as [Hlen HP]. split; [done|].
  intros i p p' Hp Hp'. destruct (HP i p p' Hp Hp') as [Hro Hflags].
  rewrite (find_stored store) in Hflags
    by (done || by eapply list_elem_of_lookup_2).
  cbv zeta in Hflags. destruct Hflags as [Hc Hh].
  split; [done|]. split.
  - rewrite Hh. by destruct (Part.canHide p).
  - rewrite Hc. fold store.
    change (PartState.collapsed (store p)) with (Part.collapsed p).
    destruct (Part.collapsed p), (truthy _), (bool_decide _); done.
Qed.


Lemma canHide_readonly p p' :
  readonly p' = readonly p -> Part.canHide p' = Part.canHide p.
Proof. unfold readonly, Part.canHide. by intros [= _ _ _ ->]. Qed.

Global Instance unhideableKept_refl : Reflexive unhideableKept.
Proof. by intros p. Qed.

Global Instance unhideableKept_trans : Transitive unhideableKept.
Proof.
  intros p q r [Hr1 Hh1] [Hr2 Hh2]. split; [congruence|].
  intros Hcan. rewrite Hh2, Hh1; [done..|].
  by rewrite (canHide_readonly p q).
Qed.

Lemma unhideableKept_uncollapsedSize size p :
  unhideableKept p (Part.with_uncollapsedSize size p).
Proof. by destruct p. Qed.

Lemma assigned_kept node collapsed p p' :
  assigned node collapsed p p' -> unhideableKept p p'.
Proof. intros (? & ? & ?). by split. Qed.

Lemma restored_kept stored node p p' :
  restored stored node p p' -> unhideableKept p p'.
Proof.
  intros [Hro H]. split; [done|]. intros Hcan. rewrite Hcan in H.
  destruct (List.find _ _); by destruct H.
Qed.

Global Instance partsKept_refl : Reflexive partsKept.
Proof. intros c. exists (Container.widgets c). split; [done|]. by apply Forall_Forall2_diag, Forall_true. Qed.

Lemma Forall2_kept_perm l1 l2 l3 :
  Forall2 unhideableKept l1 l2 -> l2 ≡ₚ l3 ->
  exists l1', l1 ≡ₚ l1' /\ Forall2 unhideableKept l1' l3.
Proof.
  intros HF HP.
  assert (Forall2 (flip unhideableKept) l2 l1) as HF' by by apply Forall2_flip.
  destruct (Permutation_Forall2 HP HF') as (l1' & Hperm & HF'').
  exists l1'. split; [done|]. by apply Forall2_flip in HF''.
Qed.

Global Instance partsKept_trans : Transitive partsKept.
Proof.
  intros c1 c2 c3 (l & Hp & HF) (l' & Hp' & HF').
  destruct (Forall2_kept_perm _ _ _ HF Hp') as (l1 & Hp1 & HF1).
  exists l1. split; [by etrans|]. by etrans.
Qed.

Lemma partsKept_with_parts l c :
  Forall2 unhideableKept (Container.widgets c) l ->
  partsKept c (Container.with_parts l c).
Proof. intros H. by exists (Container.widgets c). Qed.

Lemma partsKept_permuted l c :
  l ≡ₚ Container.widgets c -> partsKept c (Container.with_parts l c).
Proof.
  intros H. exists l. split; [done|].
  by apply Forall_Forall2_diag, Forall_true.
Qed.

Lemma Forall2_kept_insert l i p p' :
  l !! i = Some p -> unhideableKept p p' ->
  Forall2 unhideableKept l (<[i:=p']> l).
Proof.
  intros Hp HR. rewrite <-(list_insert_id l i p) at 1 by done.
  apply Forall2_insert; [|done]. by apply Forall_Forall2_diag, Forall_true.
Qed.

(** *** Each operation on its own *)

Lemma setCollapsed_kept index collapsed c :
  partsKept c (Container.setCollapsed index collapsed c).
Proof.
  destruct (Container.widgets c !! index) as [p|] eqn:Hp.
  - destruct (setCollapsed_spec index collapsed (Container.widgets c) c p Hp)
      as (p' & H & Ha).
    rewrite with_parts_same in H. rewrite H.
    apply partsKept_with_parts.
    eapply Forall2_kept_insert; [done|]. by eapply assigned_kept.
  - by rewrite setCollapsed_out.
Qed.

Lemma onPart_kept index f c :
  (forall p, Container.widgets c !! index = Some p -> unhideableKept p (f p)) ->
  partsKept c (Container.onPart index f c).
Proof.
  intros Hf. apply partsKept_with_parts.
  apply Forall2_alter_r; [by apply Forall_Forall2_diag, Forall_true|].
  intros x y Hx Hy _. assert (x = y) as <- by congruence. by apply Hf.
Qed.

Lemma hidden_kept h p :
  Part.canHide p = true -> unhideableKept p (Part.with_hidden h p).
Proof. intros Hcan. split; [by destruct p|]. congruence. Qed.

Lemma toggleVisibility_kept index c :
  partsKept c (Container.toggleVisibility index c).
Proof.
  unfold Container.toggleVisibility.
  destruct (Container.widgets c !! index) as [part|] eqn:Hpart; [|done].
  destruct (Part.canHide part) eqn:Hcan; [|done].
  etrans.
  { apply (onPart_kept index (Part.setHidden (negb (Part.isHidden part)))).
    intros p Hp. assert (p = part) as -> by congruence.
    unfold Part.setHidden, Part.hide, Part.show.
    destruct (negb _); by apply hidden_kept. }
  set (c1 := Container.onPart _ _ c).
  destruct (Container.widgets c1 !! index) as [part'|]; [|done].
  destruct (negb (Part.isHidden part')); [|done]. apply setCollapsed_kept.
Qed.

Lemma executeToggle_kept partId c :
  partsKept c (Container.executeToggle partId c).
Proof.
  unfold Container.executeToggle.
  destruct (existsb _ _); [|done].
  destruct (findIndex _ _); [|done]. apply toggleVisibility_kept.
Qed.

Lemma executeGlobalHide_kept closestPart c :
  partsKept c (Container.executeGlobalHide closestPart c).
Proof.
  unfold Container.executeGlobalHide.
  destruct (Container.findPartForAnchor _ _) as [index|]; [|done].
  destruct (Container.widgets c !! index) as [toHide|] eqn:Hpart; [|done].
  destruct (Part.canHide toHide) eqn:Hcan; [|done].
  apply onPart_kept. intros p Hp. assert (p = toHide) as -> by congruence.
  by apply hidden_kept.
Qed.

Lemma restoreState_kept state c :
  partsKept c (Container.restoreState state c).
Proof.
  destruct state as [[stored|]]; [|done].
  destruct (restoreState_parts stored c) as (l' & -> & HF).
  eexists. split; [symmetry; apply reorder_Permutation|].
  eapply Forall2_impl; [exact HF|]. intros p p'. apply restored_kept.
Qed.

Lemma moveBefore_kept a b c : partsKept c (Container.moveBefore a b c).
Proof.
  unfold Container.moveBefore.
  destruct (findIndex _ _); [|done]. destruct (findIndex _ _); [|done].
  apply partsKept_permuted, moveWidget_Permutation.
Qed.

Lemma onDrop_kept moveId index c : partsKept c (Container.onDrop moveId index c).
Proof.
  unfold Container.onDrop.
  destruct (Container.widgets c !! index); [|done].
  destruct (_ && _); [|done]. apply moveBefore_kept.
Qed.

Lemma clickHeader_kept index c : partsKept c (Container.clickHeader index c).
Proof.
  unfold Container.clickHeader.
  destruct (Container.widgets c !! index); [|done]. apply setCollapsed_kept.
Qed.

(** [onAfterAttach] assigns [collapsed = false] to every part when the
    container is horizontal. *)
Lemma onAfterAttach_parts c :
  exists l',
    Container.widgets (Container.onAfterAttach c) = l'
    /\ Forall2 (fun p p' =>
                  unhideableKept p p'
                  /\ (Container.orientation c = horizontal ->
                      Part.collapsed p' = false))
               (Container.widgets c) l'.
Proof.
  unfold Container.onAfterAttach. cbv zeta.
  set (c0 := Container.with_layout _ c).
  assert (exists c1 l',
            match Container.orientation c with
            | horizontal =>
                foldl (fun c index => Container.setCollapsed index false c) c0
                      (seq 0 (length (Container.widgets c0)))
            | vertical => c0
            end = c1
            /\ c1 = Container.with_parts l' c0
            /\ Forall2 (fun p p' =>
                  unhideableKept p p'
                  /\ (Container.orientation c = horizontal ->
                      Part.collapsed p' = false))
               (Container.widgets c) l') as (c1 & l' & -> & -> & HF).
  { destruct (Container.orientation c) eqn:Ho.
    - destruct (foldl_indices_all
                  (assigned (Layout.partNode (Container.layout c0)) false)
                  (fun i c => Container.setCollapsed i false c) c0)
        as (l' & -> & HF).
      { intros l i p Hp. by apply setCollapsed_spec. }
      eexists _, l'. split; [done|]. split; [done|].
      eapply Forall2_impl; [exact HF|]. intros p p' Ha. split.
      + by eapply assigned_kept.
      + intros _. destruct Ha as (_ & _ & ->). by rewrite andb_false_r.
    - exists c0, (Container.widgets c). split; [done|].
      split; [by rewrite <-(with_parts_same c0) at 1|].
      apply Forall_Forall2_diag, Forall_true. by intros p. }
  exists l'. split; [|done].
  destruct (Layout.parent _); [|done]. by destruct (negb _).
Qed.

Lemma onAfterAttach_kept c : partsKept c (Container.onAfterAttach c).
Proof.
  destruct (onAfterAttach_parts c) as (l' & Hl' & HF).
  exists (Container.widgets c). split; [done|]. rewrite Hl'.
  eapply Forall2_impl; [exact HF|]. by intros p p' [? _].
Qed.

(** *** Sizing leaves the flags alone *)

Lemma sizePart_kept L avg total avail index position part w r :
  Layout.sizePart L avg total avail index position part w = Some r ->
  unhideableKept part r.1.1.
Proof.
  unfold Layout.sizePart.
  destruct (negb (Part.isHidden part)); [|by intros [= <-]].
  destruct (Part.collapsed part).
  - destruct (truthy w).
    + destruct (jsdiv _ _); [|done]. intros [= <-].
      apply unhideableKept_uncollapsedSize.
    + by intros [= <-].
  - destruct (jsdiv _ _); [|done]. by intros [= <-].
Qed.

Lemma applyWeights_kept L avg total avail parts :
  forall weights index position r,
  Layout.applyWeights L avg total avail index position parts weights = Some r ->
  Forall2 unhideableKept parts r.1.
Proof.
  induction parts as [|part parts IH]; intros weights index position r.
  { destruct weights; intros [= <-]; constructor. }
  destruct parts as [|next rest].
  { rewrite applyWeights_last. intros [= <-]. by repeat constructor. }
  destruct weights as [|w ws].
  { intros [= <-]. by apply Forall_Forall2_diag, Forall_true. }
  rewrite applyWeights_cons.
  destruct (Layout.sizePart _ _ _ _ _ _ _ _) as [visit|] eqn:Hvisit; [|done].
  cbn [mbind option_bind].
  destruct (Layout.applyWeights _ _ _ _ _ _ _ _) as [later|] eqn:Hlater;
    [|done].
  intros [= <-]. constructor; [by eapply sizePart_kept|by eapply IH].
Qed.

Lemma setPartSizes_kept weights L r :
  Layout.setPartSizes weights L = Some r ->
  r.1 = Layout.with_items (Layout.items r.1) L
  /\ Forall2 unhideableKept (Layout.items L) (Layout.items r.1).
Proof.
  unfold Layout.setPartSizes.
  destruct (Layout.sumWeights _ _ _ _) as [total count].
  destruct (bool_decide _ || _).
  { intros [= <-]. split; [by destruct L|].
    by apply Forall_Forall2_diag, Forall_true. }
  destruct (Layout.applyWeights _ _ _ _ _ _ _ _) as [[parts steps]|] eqn:H;
    [|done].
  intros [= <-]. split; [done|].
  by apply applyWeights_kept in H.
Qed.

Lemma runDeferred_kept queue : forall L L',
  Container.runDeferred queue L = Some L' ->
  L' = Layout.with_items (Layout.items L') L
  /\ Forall2 unhideableKept (Layout.items L) (Layout.items L').
Proof.
  induction queue as [|weights queue IH]; intros L L'; cbn [Container.runDeferred].
  { intros [= <-]. split; [by destruct L|].
    by apply Forall_Forall2_diag, Forall_true. }
  destruct (Layout.setPartSizes weights L) as [r|] eqn:Hr; [|done].
  cbn [mbind option_bind]. intros H. apply IH in H as [HL' HF'].
  apply setPartSizes_kept in Hr as [Hr HF].
  split; [by rewrite HL', Hr|]. by etrans.
Qed.

Lemma flush_kept c c' : Container.flush c = Some c' -> partsKept c c'.
Proof.
  unfold Container.flush. destruct (Container.attached c); [|by intros [= <-]].
  destruct (Container.runDeferred _ _) as [L|] eqn:HL; [|done].
  intros [= <-]. apply runDeferred_kept in HL as [_ HF].
  by exists (Container.widgets c).
Qed.

Lemma place_kept area c : partsKept c (Container.place area c).
Proof. by exists (Container.widgets c). Qed.

Lemma measure_kept width height readings c :
  partsKept c (Container.measure width height readings c).
Proof.
  exists (Container.widgets c). split; [done|].
  unfold Container.measure, Container.widgets, Layout.widgets. cbn.
  generalize (Layout.items (Container.layout c)). intros l.
  revert readings. induction l as [|p l IH]; intros [|r readings]; cbn.
  - constructor.
  - constructor.
  - by apply Forall_Forall2_diag, Forall_true.
  - constructor; [done|]. apply IH.
Qed.

(** *** Adding and removing *)

Lemma Qltb_lt a b : Qltb a b = true <-> a < b.
Proof.
  unfold Qltb. rewrite negb_true_iff.
  split.
  - intros H. apply Qnot_le_lt. intros Hle.
    apply Qle_bool_iff in Hle. congruence.
  - intros H. destruct (Qle_bool b a) eqn:E; [|done].
    apply Qle_bool_iff in E. by apply Qle_not_lt in E.
Qed.

Lemma ordersAfter_comesAfter k p :
  Container.ordersAfter k p = true <-> comesAfter k p.
Proof.
  unfold Container.ordersAfter, comesAfter.
  destruct (WidgetOptions.order _); [apply Qltb_lt|done].
Qed.

Lemma findIndex_split {A} (f : A -> bool) l i :
  findIndex f l = Some i ->
  exists x rest, drop i l = x :: rest /\ f x = true
                 /\ Forall (fun y => f y = false) (take i l).
Proof.
  intros H. apply findIndex_Some in H as (x & Hx & Hfx & Hmin).
  exists x, (drop (S i) l). split; [by apply drop_S|]. split; [done|].
  apply Forall_lookup. intros j y Hy.
  apply lookup_take_Some in Hy as [Hy Hj]. by eapply Hmin.
Qed.

Lemma addWidget_duplicate widget options c :
  wraps widget c = true ->
  Container.addWidget widget options c = (c, DisposableNULL).
Proof. unfold Container.addWidget, wraps, wid. by intros ->. Qed.

Lemma addWidget_inserts widget options c :
  wraps widget c = false ->
  let newPart :=
    Container.newPart widget (default (widget_id widget) (description widget))
                      (Container.id c) (default WidgetOptions.empty options) in
  exists before after,
    Container.widgets c = before ++ after
    /\ Container.widgets (Container.addWidget widget options c).1
       = before ++ newPart :: after
    /\ (Container.addWidget widget options c).2 = DisposableCollection widget
    /\ match options ≫= WidgetOptions.order with
       | Some k =>
           Forall (fun p => ¬ comesAfter k p) before
           /\ match after with
              | [] => True
              | p :: _ => comesAfter k p
              end
       | None => after = []
       end.
Proof.
  intros Hw. cbv zeta. unfold Container.addWidget.
  unfold wraps, wid in Hw. rewrite Hw.
  set (new := Container.newPart _ _ _ _).
  assert (forall c l, Container.widgets (Container.with_parts l c) = l) as Hwp
    by done.
  assert (Container.widgets (Container.registerPart new c)
          = Container.widgets c) as Hreg.
  { unfold Container.registerPart. by destruct (Part.canHide new). }
  cbn [fst snd]. rewrite Hwp, Hreg.
  destruct (options ≫= WidgetOptions.order) as [k|].
  - destruct (findIndex (Container.ordersAfter k) (Container.widgets c))
      as [index|] eqn:Hi.
    + apply findIndex_split in Hi as (x & rest & Hdrop & Hx & Hbefore).
      exists (take index (Container.widgets c)), (x :: rest).
      split; [by rewrite <-Hdrop, take_drop|].
      split; [unfold insertAt; by rewrite Hdrop|]. split; [done|].
      split; [|by apply ordersAfter_comesAfter].
      eapply Forall_impl; [exact Hbefore|]. intros p Hp Hafter.
      apply ordersAfter_comesAfter in Hafter. congruence.
    + apply findIndex_None in Hi.
      exists (Container.widgets c), []. rewrite app_nil_r.
      split; [done|]. split; [done|]. split; [done|]. split; [|done].
      eapply Forall_impl; [exact Hi|]. intros p Hp Hafter.
      apply ordersAfter_comesAfter in Hafter. congruence.
  - exists (Container.widgets c), []. by rewrite app_nil_r.
Qed.

Lemma removeWidget_parts widget c :
  (Container.removeWidget widget c).1 = c
  \/ exists index,
       Container.widgets (Container.removeWidget widget c).1
       = delete index (Container.widgets c).
Proof.
  unfold Container.removeWidget.
  destruct (findIndex _ _) as [index|]; [|by left].
  destruct (Container.widgets c !! index); [|by left].
  right. by exists index.
Qed.

(** *** Invariants along every run *)

Section Invariant.
Variable I : Container.t -> Prop.
Hypothesis I_kept : forall c c', partsKept c c' -> I c -> I c'.
Hypothesis I_add :
  forall widget options c, I c -> I (Container.addWidget widget options c).1.
Hypothesis I_remove :
  forall widget c, I c -> I (Container.removeWidget widget c).1.

Lemma step_invariant op c c' : Container.step op c = Some c' -> I c -> I c'.
Proof using I_kept I_add I_remove.
  unfold Container.step. intros Hflush Hc.
  eapply I_kept; [by eapply flush_kept|].
  destruct op; auto.
  - eapply I_kept; [apply restoreState_kept|done].
  - eapply I_kept; [apply executeToggle_kept|done].
  - eapply I_kept; [apply executeGlobalHide_kept|done].
  - eapply I_kept; [apply onDrop_kept|done].
  - eapply I_kept; [apply clickHeader_kept|done].
  - eapply I_kept; [apply onAfterAttach_kept|].
    eapply I_kept; [apply place_kept|done].
  - eapply I_kept; [apply place_kept|done].
  - destruct (Layout.parent _) as [panel|]; [|done].
    destruct (isAttached panel); [|done].
    eapply I_kept; [|exact Hc]. by exists (Container.widgets c).
  - eapply I_kept; [|exact Hc]. by exists (Container.widgets c).
  - eapply I_kept; [apply measure_kept|done].
Qed.

Lemma run_invariant ops : forall c c',
  Container.run ops c = Some c' -> I c -> I c'.
Proof using I_kept I_add I_remove.
  induction ops as [|op ops IH]; intros c c'; cbn [Container.run].
  { by intros [= <-]. }
  destruct (Container.step op c) as [c1|] eqn:Hstep; [|done].
  cbn [mbind option_bind]. intros Hrun Hc.
  eapply IH; [done|]. by eapply step_invariant.
Qed.

Lemma create_invariant id inputs :
  I (Container.create id []) -> I (Container.create id inputs).
Proof using I_kept I_add.
  unfold Container.create. cbv zeta. cbn [foldl map].
  set (c0 := Container.mk _ _ _ _ _ _ _). intros H0.
  assert (I c0) as Hc0.
  { eapply I_kept; [|exact H0]. by exists []. }
  clear H0.
  assert (forall c, I c ->
            I (foldl (fun c input =>
                        (Container.addWidget input.1 input.2 c).1) c inputs))
    as Hfold.
  { induction inputs as [|input inputs IH]; intros c Hc; [done|].
    cbn [foldl]. apply IH. by apply I_add. }
  eapply I_kept; [|by apply Hfold, Hc0].
  by eexists.
Qed.
End Invariant.


(** *** No two parts for one widget *)

Lemma wid_readonly p p' : readonly p' = readonly p -> wid p' = wid p.
Proof. unfold readonly, wid. by intros [= -> _ _ _]. Qed.

Lemma newPart_readonly widget partId containerId options :
  readonly (Container.newPart widget partId containerId options)
  = (widget, partId, containerId +:+ "--" +:+ widget_id widget, options).
Proof.
  unfold Container.newPart, Part.set_collapsed. cbv zeta.
  destruct (bool_decide _ || _); cbn [fst];
    destruct (isTrue _ && _); done.
Qed.

Lemma wid_newPart widget partId containerId options :
  wid (Container.newPart widget partId containerId options) = widget_id widget.
Proof.
  pose proof (newPart_readonly widget partId containerId options) as H.
  unfold readonly in H. unfold wid. by injection H as -> _ _ _.
Qed.

Lemma Forall2_kept_wid l l' :
  Forall2 unhideableKept l l' -> map wid l' = map wid l.
Proof.
  induction 1 as [|p p' l l' [Hro _] _ IH]; [done|].
  cbn [map]. by rewrite IH, (wid_readonly p p').
Qed.

Lemma wraps_false widget c :
  wraps widget c = false -> widget_id widget ∉ map wid (Container.widgets c).
Proof.
  unfold wraps. intros Hw Hin.
  apply list_elem_of_fmap in Hin as (p & Hp & Hin).
  rewrite (existsb_elem _ _ p) in Hw; [done..|].
  rewrite Hp. apply String.eqb_refl.
Qed.

Lemma wraps_true widget c :
  widget_id widget ∈ map wid (Container.widgets c) -> wraps widget c = true.
Proof.
  intros Hin. apply list_elem_of_fmap in Hin as (p & Hp & Hin).
  apply (existsb_elem _ _ p); [done|]. rewrite Hp. apply String.eqb_refl.
Qed.

Lemma uniqueWidgets_kept c c' :
  partsKept c c' -> uniqueWidgets c -> uniqueWidgets c'.
Proof.
  unfold uniqueWidgets. intros (l & Hperm & HF) Hnd.
  rewrite (Forall2_kept_wid _ _ HF). by rewrite <-Hperm.
Qed.

Lemma uniqueWidgets_add widget options c :
  uniqueWidgets c -> uniqueWidgets (Container.addWidget widget options c).1.
Proof.
  unfold uniqueWidgets. intros Hnd.
  destruct (wraps widget c) eqn:Hw.
  { by rewrite addWidget_duplicate. }
  destruct (addWidget_inserts widget options c Hw)
    as (before & after & Hc & -> & _).
  apply wraps_false in Hw. rewrite Hc in Hnd, Hw.
  rewrite map_app in *. cbn [map]. rewrite wid_newPart.
  apply NoDup_app in Hnd as (Hb & Hba & Ha).
  apply NoDup_app. split; [done|]. split.
  - intros x Hx [->|Hxa]%elem_of_cons.
    + apply Hw, elem_of_app. by left.
    + by eapply Hba.
  - apply NoDup_cons. split; [|done].
    intros Hin. apply Hw, elem_of_app. by right.
Qed.

Lemma uniqueWidgets_remove widget c :
  uniqueWidgets c -> uniqueWidgets (Container.removeWidget widget c).1.
Proof.
  unfold uniqueWidgets. intros Hnd.
  destruct (removeWidget_parts widget c) as [->|[index ->]]; [done|].
  eapply sublist_NoDup; [exact Hnd|].
  change (map wid) with (fmap (M:=list) wid).
  rewrite list_fmap_delete. apply sublist_delete.
Qed.

Lemma addWidget_wraps widget options c :
  wraps widget (Container.addWidget widget options c).1 = true.
Proof.
  destruct (wraps widget c) eqn:Hw.
  { by rewrite addWidget_duplicate. }
  destruct (addWidget_inserts widget options c Hw)
    as (before & after & _ & Hc' & _).
  apply wraps_true. rewrite Hc', map_app. cbn [map]. rewrite wid_newPart.
  apply elem_of_app. right. by left.
Qed.

(** C4.  [addWidget] with a widget whose id a part already wraps returns the
    container unchanged with [Disposable.NULL]; this is in particular so for
    a second call with the same widget; and along every run from the
    constructor no two parts wrap the same widget id. *)
Theorem addWidget_again_ignored :
  (forall widget options c,
     wraps widget c = true ->
     Container.addWidget widget options c = (c, DisposableNULL))
  /\ (forall widget options options' c,
        let c1 := (Container.addWidget widget options c).1 in
        Container.addWidget widget options' c1 = (c1, DisposableNULL))
  /\ (forall id inputs ops c,
        Container.run ops (Container.create id inputs) = Some c ->
        NoDup (map wid (Container.widgets c))).
Proof.
  split; [apply addWidget_duplicate|]. split.
  - intros widget options options' c. cbv zeta.
    apply addWidget_duplicate, addWidget_wraps.
  - intros id inputs ops c Hrun.
    apply (run_invariant uniqueWidgets uniqueWidgets_kept uniqueWidgets_add
             uniqueWidgets_remove ops _ _ Hrun).
    apply (create_invariant uniqueWidgets uniqueWidgets_kept
             uniqueWidgets_add).
    constructor.
Qed.

(** *** Parts that cannot be hidden *)

Lemma unhideableVisible_kept c c' :
  partsKept c c' -> unhideableVisible c -> unhideableVisible c'.
Proof.
  unfold unhideableVisible. intros (l & Hperm & HF) Hc.
  rewrite Hperm in Hc. clear Hperm.
  induction HF as [|p p' l l' [Hro Hh] _ IH]; [constructor|].
  apply Forall_cons in Hc as [Hp Hl]. constructor; [|by apply IH].
  rewrite (canHide_readonly p p') by done. intros Hcan.
  rewrite Hh by done. by apply Hp.
Qed.

Lemma newPart_unhideable widget partId containerId options :
  let p := Container.newPart widget partId containerId options in
  Part.canHide p = false -> Part.isHidden p = false.
Proof.
  cbv zeta. unfold Container.newPart. cbv zeta.
  set (p0 := Part.mk _ _ _ _ _ _ _ _ _ _ _ _).
  set (p1 := (Part.set_collapsed None _ p0).1).
  assert (Part.isHidden p1 = false) as Hh.
  { unfold p1, Part.set_collapsed. by destruct (bool_decide _ || _). }
  destruct (Part.canHide p1) eqn:Hcan.
  - destruct (isTrue (WidgetOptions.initiallyHidden options)); cbn [andb];
      [|intros; congruence].
    unfold Part.canHide in *. cbn. intros. congruence.
  - by rewrite andb_false_r.
Qed.

Lemma unhideableVisible_add widget options c :
  unhideableVisible c ->
  unhideableVisible (Container.addWidget widget options c).1.
Proof.
  unfold unhideableVisible. intros Hc.
  destruct (wraps widget c) eqn:Hw.
  { by rewrite addWidget_duplicate. }
  destruct (addWidget_inserts widget options c Hw)
    as (before & after & Hl & -> & _).
  rewrite Hl in Hc. apply Forall_app in Hc as [Hb Ha].
  apply Forall_app. split; [done|]. constructor; [|done].
  apply newPart_unhideable.
Qed.

Lemma unhideableVisible_remove widget c :
  unhideableVisible c ->
  unhideableVisible (Container.removeWidget widget c).1.
Proof.
  unfold unhideableVisible. intros Hc.
  destruct (removeWidget_parts widget c) as [->|[index ->]]; [done|].
  by apply Forall_delete.
Qed.

(** C8.  The global hide command, [toggleVisibility], the visibility command
    of a part and [restoreState] permute the parts at most and leave the
    hidden flag of every part with [canHide = false] as it is; along every
    run from the constructor such a part is never hidden. *)
Theorem unhideable_never_hidden :
  (forall closestPart c,
     partsKept c (Container.executeGlobalHide closestPart c))
  /\ (forall index c, partsKept c (Container.toggleVisibility index c))
  /\ (forall partId c, partsKept c (Container.executeToggle partId c))
  /\ (forall state c, partsKept c (Container.restoreState state c))
  /\ (forall id inputs ops c,
        Container.run ops (Container.create id inputs) = Some c ->
        Forall (fun p => Part.canHide p = false -> Part.isHidden p = false)
               (Container.widgets c)).
Proof.
  split; [apply executeGlobalHide_kept|].
  split; [apply toggleVisibility_kept|].
  split; [apply executeToggle_kept|].
  split; [apply restoreState_kept|].
  intros id inputs ops c Hrun.
  apply (run_invariant unhideableVisible unhideableVisible_kept
           unhideableVisible_add unhideableVisible_remove ops _ _ Hrun).
  apply (create_invariant unhideableVisible unhideableVisible_kept
           unhideableVisible_add).
  constructor.
Qed.

(** *** The visibility command *)

(** C9.  Executing the visibility command of a hidden part that can hide
    leaves that part visible and expanded. *)
Theorem toggle_shows_expanded partId index part c :
  existsb (String.eqb partId) (Container.commands c) = true ->
  findIndex (Container.hasId partId) (Container.widgets c) = Some index ->
  Container.widgets c !! index = Some part ->
  Part.canHide part = true ->
  Part.isHidden part = true ->
  exists part',
    Container.widgets (Container.executeToggle partId c) !! index = Some part'
    /\ readonly part' = readonly part
    /\ Part.isHidden part' = false
    /\ Part.collapsed part' = false.
Proof.
  intros Hcmd Hindex Hpart Hcan Hhidden.
  unfold Container.executeToggle. rewrite Hcmd, Hindex.
  unfold Container.toggleVisibility. rewrite Hpart, Hcan, Hhidden.
  cbn [negb].
  unfold Container.onPart. rewrite (alter_as_insert _ _ part) by done.
  change (Part.setHidden false part) with (Part.show part).
  assert (index < length (Container.widgets c))%nat as Hlt
    by by apply lookup_lt_Some in Hpart.
  change (Container.widgets (Container.with_parts ?l c)) with l.
  rewrite list_lookup_insert_eq by done.
  change (negb (Part.isHidden (Part.show part))) with true. cbv iota.
  destruct (setCollapsed_spec index false
              (<[index:=Part.show part]> (Container.widgets c)) c
              (Part.show part)) as (p' & -> & Hro & Hh & Hc).
  { by rewrite list_lookup_insert_eq. }
  exists p'. change (Container.widgets (Container.with_parts ?l c)) with l.
  rewrite insert_insert_same, list_lookup_insert_eq by done.
  split; [done|]. split; [by rewrite Hro; destruct part|].
  split; [by rewrite Hh|]. by rewrite Hc, andb_false_r.
Qed.

(** *** Where a new part goes *)

(** C5.  [addWidget] with [options.order = k] and a widget that is not yet
    wrapped puts the new part right before the first part whose order is
    undefined or greater than [k]: no part before it comes after [k], the part
    behind it (if any) does; when there is no such part it is the last one. *)
Theorem addWidget_order widget options k c :
  WidgetOptions.order options = Some k ->
  wraps widget c = false ->
  exists before after,
    Container.widgets c = before ++ after
    /\ Container.widgets (Container.addWidget widget (Some options) c).1
       = before
         ++ Container.newPart widget
              (default (widget_id widget) (description widget))
              (Container.id c) options
         :: after
    /\ Forall (fun p => ¬ comesAfter k p) before
    /\ match after with
       | [] => True
       | p :: _ => comesAfter k p
       end.
Proof.
  intros Hk Hw.
  destruct (addWidget_inserts widget (Some options) c Hw)
    as (before & after & Hc & Hc' & _ & Hpos).
  cbn [mbind option_bind] in Hpos. rewrite Hk in Hpos.
  exists before, after. by destruct Hpos.
Qed.

(** C5: order 2 goes between the orders 1 and 3. *)
Lemma addWidget_order_witness :
  exists before after,
    Container.widgets orderedContainer = before ++ after
    /\ Container.widgets
         (Container.addWidget (mkWidget "d" None) (ordered "d" 2)
                              orderedContainer).1
       = before
         ++ Container.newPart (mkWidget "d" None) "d" "vc"
              (WidgetOptions.mk (Some 2) None None None None)
         :: after
    /\ Forall (fun p => ¬ comesAfter 2 p) before
    /\ match after with
       | [] => True
       | p :: _ => comesAfter 2 p
       end.
Proof.
  apply (addWidget_order (mkWidget "d" None)
           (WidgetOptions.mk (Some 2) None None None None) 2
           orderedContainer); reflexivity.
Defined.

(** *** The target of an expand animation *)

Lemma Qmax_largerOf a b : largerOf a b (Qmax a b).
Proof.
  unfold largerOf, Qmax. destruct (Qltb a b) eqn:E.
  - apply Qltb_lt in E. split; [by right|]. split; [by apply Qlt_le_weak|].
    apply Qle_refl.
  - split; [by left|]. split; [apply Qle_refl|].
    apply Qnot_lt_le. intros Hlt. apply Qltb_lt in Hlt. congruence.
Qed.

Lemma filter_nil_iff {A} (f : A -> bool) l :
  List.filter f l = [] <-> Forall (fun x => f x = false) l.
Proof.
  induction l as [|a l IH]; simpl; [by split; [constructor|]|].
  destruct (f a) eqn:Ha.
  - split; [done|]. intros H. apply Forall_cons in H as [? _]. congruence.
  - rewrite IH. split; [by constructor|]. by intros [_ ?]%Forall_cons.
Qed.

Lemma filter_one index part l (f : Part.t -> bool) :
  l !! index = Some part -> f part = true ->
  length (List.filter f l) = 1%nat
  <-> (forall j q, l !! j = Some q -> f q = true -> j = index).
Proof.
  intros Hpart Hf.
  rewrite <-(take_drop_middle l index part Hpart) at 1.
  rewrite List.filter_app. cbn [List.filter]. rewrite Hf.
  rewrite length_app. cbn [length].
  assert (index < length l)%nat as Hlt by by apply lookup_lt_Some in Hpart.
  split.
  - intros Hlen j q Hq Hfq.
    assert (List.filter f (take index l) = []) as Hb
      by (apply nil_length_inv; lia).
    assert (List.filter f (drop (S index) l) = []) as Ha
      by (apply nil_length_inv; lia).
    apply filter_nil_iff in Hb, Ha.
    destruct (Nat.lt_trichotomy j index) as [Hj|[Hj|Hj]]; [|done|].
    + rewrite Forall_lookup in Hb. specialize (Hb j q).
      rewrite lookup_take_lt in Hb by done. rewrite Hb in Hfq; done.
    + rewrite Forall_lookup in Ha. specialize (Ha (j - S index)%nat q).
      rewrite lookup_drop in Ha.
      replace (S index + (j - S index))%nat with j in Ha by lia.
      rewrite Ha in Hfq; done.
  - intros Honly.
    assert (List.filter f (take index l) = []) as ->.
    { apply filter_nil_iff, Forall_lookup. intros j q Hq.
      apply lookup_take_Some in Hq as [Hq Hj].
      destruct (f q) eqn:Hfq; [|done]. specialize (Honly j q Hq Hfq). lia. }
    assert (List.filter f (drop (S index) l) = []) as ->.
    { apply filter_nil_iff, Forall_lookup. intros j q Hq.
      rewrite lookup_drop in Hq.
      destruct (f q) eqn:Hfq; [|done]. specialize (Honly _ q Hq Hfq). lia. }
    done.
Qed.

(** C7.  When [updateCollapsed] animates the expansion of a visible part, the
    target is the larger of [uncollapsedSize || 0] minus the header size and
    the minimum content size of the part; if the part is the only expanded,
    visible one, the target is the larger of that and the available size. *)
Theorem updateCollapsed_expand_target index part L :
  Layout.items L !! index = Some part ->
  is_Some (Layout.parent L) ->
  Part.isHidden part = false ->
  Part.collapsed part = false ->
  0 < Layout.animationDuration L ->
  exists wanted fullSize,
    Layout.updateCollapsed index true L
    = (L, Layout.Animate Layout.expand fullSize (Layout.animationDuration L))
    /\ largerOf (orElse (Part.uncollapsedSize part) 0 - Layout.headerSize L)
                (Part.minSize (Layout.partNode L) part) wanted
    /\ (onlyExpandedVisible index L ->
        largerOf wanted (Layout.getAvailableSize L) fullSize)
    /\ (¬ onlyExpandedVisible index L -> fullSize = wanted).
Proof.
  intros Hpart [panel Hpanel] Hhidden Hcollapsed Hduration.
  unfold Layout.updateCollapsed. rewrite Hpart, Hpanel, Hhidden, Hcollapsed.
  cbn [andb negb orb]. rewrite list_insert_id, with_items_same by done.
  rewrite !Hcollapsed.
  destruct (Qle_bool (Layout.animationDuration L) 0) eqn:Hle.
  { apply Qle_bool_iff in Hle. by apply Qle_not_lt in Hle. }
  set (wanted := Qmax (orElse (Part.uncollapsedSize part) 0
                       - Layout.headerSize L)
                      (Part.minSize (Layout.partNode L) part)).
  assert (Layout.expandedVisible part = true) as Hev.
  { unfold Layout.expandedVisible. by rewrite Hhidden, Hcollapsed. }
  pose proof (filter_one index part (Layout.items L) Layout.expandedVisible
                Hpart Hev) as Hone.
  fold (onlyExpandedVisible index L) in Hone.
  exists wanted. eexists. split; [reflexivity|].
  split; [apply Qmax_largerOf|].
  destruct (bool_decide _) eqn:Hb.
  - apply bool_decide_eq_true in Hb. split; [intros _; apply Qmax_largerOf|].
    intros Hnot. destruct Hnot. by apply Hone.
  - apply bool_decide_eq_false in Hb. split; [|done].
    intros Honly. destruct Hb. by apply Hone.
Qed.

(** C7 at a part with a stale size of 122 beside a collapsed part. *)
Lemma updateCollapsed_expand_target_witness :
  exists wanted fullSize,
    Layout.updateCollapsed 0 true (twoParts (Some 122) true)
    = (twoParts (Some 122) true, Layout.Animate Layout.expand fullSize 200)
    /\ largerOf (122 - 22) 30 wanted
    /\ (onlyExpandedVisible 0 (twoParts (Some 122) true) ->
        largerOf wanted (Layout.getAvailableSize (twoParts (Some 122) true))
                 fullSize)
    /\ (¬ onlyExpandedVisible 0 (twoParts (Some 122) true) ->
        fullSize = wanted).
Proof.
  apply (updateCollapsed_expand_target 0
           (Part.mk (mkWidget "p1" None) "p1" "c--p1" WidgetOptions.empty
                    false false (Some 122) None 300 22 0 30)
           (twoParts (Some 122) true)).
  - reflexivity.
  - by eexists.
  - reflexivity.
  - reflexivity.
  - reflexivity.
Defined.

Example expand_alone_stretches :
  (Layout.updateCollapsed 0 true (twoParts (Some 122) true)).2
  = Layout.Animate Layout.expand (Layout.getAvailableSize (twoParts (Some 122) true)) 200
  /\ Layout.getAvailableSize (twoParts (Some 122) true) == 400.
Proof. split; [vm_compute|]; reflexivity. Qed.

Example expand_beside_other :
  (Layout.updateCollapsed 0 true (twoParts (Some 122) false)).2
  = Layout.Animate Layout.expand (122 - 22) 200.
Proof. reflexivity. Qed.

(** *** Collapsing in a horizontal container *)

Lemma set_collapsed_horizontal node p :
  getOrientation node = horizontal ->
  Part.set_collapsed node true p = (p, false).
Proof.
  intros Ho. unfold Part.set_collapsed.
  rewrite (bool_decide_eq_true_2 _ Ho). by rewrite orb_true_r.
Qed.

Lemma onAfterAttach_horizontal c :
  Container.orientation c = horizontal ->
  Forall (fun p => Part.collapsed p = false)
         (Container.widgets (Container.onAfterAttach c)).
Proof.
  intros Ho. destruct (onAfterAttach_parts c) as (l' & -> & HF).
  clear -HF Ho. induction HF as [|p p' l l' [_ Hp] _ IH]; constructor; auto.
Qed.

(** C3 fails on the code.  A container is attached in the main area, which
    makes it horizontal, and then receives a widget with
    [initiallyCollapsed: true]: the constructor of the part assigns
    [collapsed] while the node of the part is not yet inserted anywhere, so
    the guard of the setter sees a vertical orientation and the part is
    collapsed in a horizontal container. *)
Theorem collapsed_part_in_horizontal_container :
  exists c part,
    Container.run
      [Container.Attach MainArea;
       Container.AddWidget (mkWidget "a" None) (Some collapsedOptions)]
      (Container.create "vc" [])
    = Some c
    /\ Container.orientation c = horizontal
    /\ Layout.orientation (Container.layout c) = horizontal
    /\ getOrientation (Layout.partNode (Container.layout c)) = horizontal
    /\ Container.widgets c = [part]
    /\ Part.collapsed part = true.
Proof. do 2 eexists. repeat split; reflexivity. Qed.

(** *** Concrete containers for the persisted state *)

(** C2 as it is stated fails: a part that starts hidden and has never been
    sized is stored expanded without a relative size, and comes back
    collapsed. *)
Lemma restoreState_storeState_collapses :
  NoDup (map Part.partId (Container.widgets savedContainer))
  /\ map Part.collapsed (Container.widgets savedContainer) = [false; false]
  /\ map Part.collapsed
       (Container.widgets
          (Container.restoreState (Container.storeState savedContainer)
                                  savedContainer))
     = [true; false].
Proof.
  split; [|by split]. by apply (bool_decide_unpack _).
Qed.

(** C2 at a measured container with a hidden part and a visible one. *)
Lemma restoreState_storeState_witness :
  Forall2 (roundTripped savedContainer)
          (Container.widgets savedContainer)
          (Container.widgets
             (Container.restoreState (Container.storeState savedContainer)
                                     savedContainer)).
Proof.
  apply restoreState_storeState. by apply (bool_decide_unpack _).
Defined.

(** C6 as it is stated fails twice: in the main area a stored
    [collapsed: true] leaves the part expanded, and a stored relative size of
    0, which is not absent, collapses the part. *)
Lemma restoreState_flags_differ :
  (let s := PartState.mk "a" true false (Some 0.5) in
   map Part.partId (Container.widgets mainAreaContainer) = ["a"]
   /\ map Part.collapsed
        (Container.widgets
           (Container.restoreState (mkState (Some [s])) mainAreaContainer))
      <> [claimedCollapsed s])
  /\ (let s := PartState.mk "a" false false (Some 0) in
      map Part.partId (Container.widgets detachedContainer) = ["a"]
      /\ map Part.collapsed
           (Container.widgets
              (Container.restoreState (mkState (Some [s])) detachedContainer))
         <> [claimedCollapsed s]).
Proof. by repeat split. Qed.

(** C9 at a part that starts hidden and collapsed. *)
Lemma toggle_shows_expanded_witness :
  exists part',
    Container.widgets (Container.executeToggle "vc--a" hiddenContainer) !! 0%nat
    = Some part'
    /\ readonly part'
       = (mkWidget "a" None, "a", "vc--a", hiddenOptions)
    /\ Part.isHidden part' = false
    /\ Part.collapsed part' = false.
Proof.
  apply (toggle_shows_expanded "vc--a" 0
           (Part.mk (mkWidget "a" None) "a" "vc--a" hiddenOptions
                    true true None None 0 0 0 0) hiddenContainer);
    reflexivity.
Defined.


(** C1 as it is stated fails.  With three visible, expanded parts weighted
    0.5, 0.3 and 0.2 the loop computes two content sizes, whose sum before
    clamping is not the available size; with three weights that are all zero
    it computes none. *)
Lemma setPartSizes_sum_stops_short :
  Forall (fun part => Layout.expandedVisible part = true)
         (Layout.items threeParts)
  /\ (exists steps,
        Layout.setPartSizes [Some 0.5; Some 0.3; Some 0.2] threeParts
        = Some (threeParts, steps)
        /\ length steps = 2%nat
        /\ ¬ Qsum (omap Layout.step_share steps)
             == Layout.getAvailableSize threeParts)
  /\ Layout.setPartSizes [Some 0; Some 0; Some 0] threeParts
     = Some (threeParts, []).
Proof.
  split; [by repeat constructor|]. split; [|reflexivity].
  eexists. split; [vm_compute; reflexivity|]. split; [reflexivity|].
  vm_compute. discriminate.
Qed.

Example zero_weight_gets_average :
  exists L steps,
    Layout.setPartSizes [Some 0.5; Some 0; Some 0.2] threeParts
    = Some (L, steps)
    /\ Forall2 (fun step size =>
                  exists q, Layout.step_share step = Some q /\ q == size)
               steps [0.5 / 1.05 * 1000; 0.35 / 1.05 * 1000].
Proof.
  do 2 eexists. split; [vm_compute; reflexivity|].
  repeat constructor; eexists; (split; [reflexivity|]); reflexivity.
Qed.

(** C4 at a container that already wraps the widget, and after a run. *)
Lemma addWidget_again_ignored_witness :
  Container.addWidget (mkWidget "a" None) (ordered "a" 5) orderedContainer
  = (orderedContainer, DisposableNULL)
  /\ NoDup (map wid (Container.widgets savedContainer)).
Proof.
  destruct addWidget_again_ignored as (Hdup & _ & Hrun). split.
  - by apply Hdup.
  - apply (Hrun "vc"
             [(mkWidget "a" None,
               Some (WidgetOptions.mk None None None None (Some true)));
              (mkWidget "b" None, None)]
             [Container.Attach SideArea;
              Container.Measure 300 500 [(300, 0, 0, 0); (300, 478, 0, 0)]]).
    vm_compute. reflexivity.
Defined.

(** C8 at a part that cannot be hidden, asked to start hidden and then
    targeted by every hiding operation. *)
Lemma unhideable_never_hidden_witness :
  is_Some pinnedRun
  /\ forall c, pinnedRun = Some c ->
               Forall (fun p => Part.canHide p = false ->
                                Part.isHidden p = false)
                      (Container.widgets c).
Proof.
  destruct unhideable_never_hidden as (_ & _ & _ & _ & Hrun).
  split; [vm_compute; by eexists|]. intros c Hc. by eapply Hrun.
Defined.

